(** * nahojer/request: a shallow embedding of the request builder

    The Go package is a fluent layer over [net/http]: a [Request] gathers
    headers, a body and a timeout override, [Request.Do] resolves an
    [*http.Client] from the context and sends the request, and [withResult.Do]
    additionally drains, closes and decodes the response body.

    Go values are modelled as follows.
    - [string] and [[]byte] : [string] and [list byte];
    - [time.Duration] : [Z] (nanoseconds);
    - [http.Header] : [gmap string (list string)];
    - [*http.Client], [io.ReadCloser], decode destinations : locations into
      the stores of a [World], so that sharing of a handle is visible;
    - [error] : the type [goerror], [nil] being [None];
    - the parts of the Go standard library that the package only calls
      (request-line validation, the round trip, the JSON and XML codecs) :
      the fields of a record [Externals]. *)

From Stdlib Require Import ZArith NArith Ascii String List Lia Bool.
From Stdlib.Strings Require Import Byte.
From stdpp Require Import base gmap strings list fin_maps pretty.

(** ** Errors *)

Module Errors.

(** [errorString] stands for an error made by a library; [wrapError] is the
    value built by [fmt.Errorf] with one [%w] verb. *)
Inductive goerror : Type :=
| errorString (msg : string)
| wrapError (msg : string) (err : goerror).

Definition Error (e : goerror) : string :=
  match e with
  | errorString m => m
  | wrapError m _ => m
  end.

Definition Unwrap (e : goerror) : option goerror :=
  match e with
  | errorString _ => None
  | wrapError _ inner => Some inner
  end.

(** [fmt.Errorf(prefix + "%w", err)] *)
Definition Errorf_w (prefix : string) (err : goerror) : goerror :=
  wrapError (prefix +:+ Error err) err.

(** [strings.HasPrefix] *)
Fixpoint HasPrefix (s p : string) {struct p} : bool :=
  match p, s with
  | EmptyString, _ => true
  | String c p', String d s' => Ascii.eqb c d && HasPrefix s' p'
  | String _ _, EmptyString => false
  end.

(** [strings.Contains] *)
Fixpoint Contains (s substr : string) : bool :=
  HasPrefix s substr
  || match s with
     | EmptyString => false
     | String _ rest => Contains rest substr
     end.

End Errors.
Export Errors.

(** ** net/textproto: canonical header keys *)

Module Textproto.

(** ['a' - 'A'] *)
Definition toLower : N := 32.

(** The 128-bit bitmap of [validHeaderFieldByte]: the token bytes of
    RFC 7230. *)
Definition tokenMask : N :=
  N.lor (N.shiftl (N.ones 10) 48)
 (N.lor (N.shiftl (N.ones 26) 97)
 (N.lor (N.shiftl (N.ones 26) 65)
 (fold_right (fun c m => N.lor (N.shiftl 1 c) m) 0%N
    [33; 35; 36; 37; 38; 39; 42; 43; 45; 46; 94; 95; 96; 124; 126]%N))).

Definition validHeaderFieldByte (c : ascii) : bool :=
  let n := N_of_ascii c in (n <? 128)%N && N.testbit tokenMask n.

Definition isLower (c : ascii) : bool :=
  let n := N_of_ascii c in (97 <=? n)%N && (n <=? 122)%N.

Definition isUpper (c : ascii) : bool :=
  let n := N_of_ascii c in (65 <=? n)%N && (n <=? 90)%N.

(** One iteration of the canonicalising loop: upper case at the start and
    after a dash, lower case elsewhere. *)
Definition canonByte (upper : bool) (c : ascii) : ascii :=
  if upper && isLower c then ascii_of_N (N_of_ascii c - toLower)
  else if negb upper && isUpper c then ascii_of_N (N_of_ascii c + toLower)
  else c.

Fixpoint canonLoop (upper : bool) (a : string) : string :=
  match a with
  | EmptyString => EmptyString
  | String c rest =>
      let c' := canonByte upper c in
      String c' (canonLoop (Ascii.eqb c' "-") rest)
  end.

Fixpoint allValid (a : string) : bool :=
  match a with
  | EmptyString => true
  | String c rest => validHeaderFieldByte c && allValid rest
  end.

(** [textproto.CanonicalMIMEHeaderKey]: "the canonicalization converts the
    first letter and any letter following a hyphen to upper case; the rest
    are converted to lowercase. If s contains a space or invalid header
    field bytes, it is returned without modifications." (The interning
    table [commonHeader] maps a canonical key to itself and is left out.) *)
Definition CanonicalMIMEHeaderKey (s : string) : string :=
  if allValid s then canonLoop true s else s.

(** ASCII case folding, used to say that two names differ in case only. *)
Definition lowerByte (c : ascii) : ascii :=
  if isUpper c then ascii_of_N (N_of_ascii c + toLower) else c.

Fixpoint ToLower (s : string) : string :=
  match s with
  | EmptyString => EmptyString
  | String c rest => String (lowerByte c) (ToLower rest)
  end.

Definition EqualFoldASCII (s t : string) : Prop := ToLower s = ToLower t.

End Textproto.
Export Textproto.

(** ** net/http: Header *)

Module Header.

Definition t : Type := gmap string (list string).

(** [h[key]], the nil slice when the key is absent *)
Definition index (h : gmap string (list string)) (key : string) : list string :=
  default [] (h !! key).

Definition Set_ (h : gmap string (list string)) (key value : string)
  : gmap string (list string) :=
  <[CanonicalMIMEHeaderKey key := [value]]> h.

Definition Add (h : gmap string (list string)) (key value : string)
  : gmap string (list string) :=
  let key := CanonicalMIMEHeaderKey key in
  <[key := index h key ++ [value]]> h.

Definition Get (h : gmap string (list string)) (key : string) : string :=
  match index h (CanonicalMIMEHeaderKey key) with
  | [] => EmptyString
  | v :: _ => v
  end.

Definition Values (h : gmap string (list string)) (key : string) : list string :=
  index h (CanonicalMIMEHeaderKey key).

End Header.

(** ** encoding/base64: StdEncoding *)

Module Base64.

Definition encodeStd : string :=
  "ABCDEFGHIJKLMNOPQRSTUVWXYZabcdefghijklmnopqrstuvwxyz0123456789+/".

Definition StdPadding : ascii := "="%char.

(** [enc.encode[i]] *)
Definition enc (i : N) : ascii :=
  match String.get (N.to_nat i) encodeStd with
  | Some c => c
  | None => StdPadding
  end.

Definition sextet (val : N) (shift : N) : ascii :=
  enc (N.land (N.shiftr val shift) 63).

Fixpoint Encode (src : list byte) : string :=
  match src with
  | [] => EmptyString
  | [b0] =>
      let val := N.shiftl (Byte.to_N b0) 16 in
      String (sextet val 18) (String (sextet val 12)
        (String StdPadding (String StdPadding EmptyString)))
  | [b0; b1] =>
      let val := N.lor (N.shiftl (Byte.to_N b0) 16) (N.shiftl (Byte.to_N b1) 8) in
      String (sextet val 18) (String (sextet val 12)
        (String (sextet val 6) (String StdPadding EmptyString)))
  | b0 :: b1 :: b2 :: rest =>
      let val := N.lor (N.lor (N.shiftl (Byte.to_N b0) 16)
                              (N.shiftl (Byte.to_N b1) 8)) (Byte.to_N b2) in
      String (sextet val 18) (String (sextet val 12)
        (String (sextet val 6) (String (sextet val 0) (Encode rest))))
  end.

(** [base64.StdEncoding.EncodeToString([]byte(s))] *)
Definition EncodeToString (src : list byte) : string := Encode src.

End Base64.



(** ** Go values, readers and the net/http data the package touches *)

(** Pointers. *)
Abbreviation loc := positive.

(** The values passed as [any] to the codecs. *)
#[warnings="-register-all"]
Inductive any : Type :=
| Nil
| Bool (b : bool)
| Int (n : Z)
| Str (s : string)
| Slice (elems : list any)
| Struct (fields : list (string * any))
| Pointer (p : loc)
| Chan (p : loc).

(** An [io.Reader] is described by what reading it to the end yields: the
    bytes, then [io.EOF] ([None]) or an error. *)
Record Reader : Type := mkReader {
  stream : list byte;
  final : option goerror
}.

(** [io.ReadAll] on a reader that nobody else reads. *)
Definition ReadAll (r : Reader) : list byte * option goerror :=
  (stream r, final r).

(** [http.Client]: the fields the package reads or writes. [Transport] names
    the [RoundTripper] ([None] is [http.DefaultTransport]). *)
Record Client : Type := mkClient {
  Timeout : Z;
  Transport : option N
}.

(** [http.Request] as assembled by [Request.Do]. *)
Record HttpRequest : Type := mkHttpRequest {
  Method : string;
  URL : string;
  ReqHeader : gmap string (list string);
  ReqBody : option Reader
}.

(** [http.Response]; [Body] points to an [io.ReadCloser] of the world. *)
Record Response : Type := mkResponse {
  StatusCode : Z;
  RespHeader : gmap string (list string);
  Body : loc
}.

(** The state of a response body: what is left to read, how reading ends,
    what a read returns once the body is closed ([None] for [io.EOF]; bodies
    made by net/http's own transport return [ErrBodyReadAfterClose], the
    body of another [RoundTripper] whatever it chooses), and whether [Close]
    was called. *)
Record BodyState : Type := mkBody {
  remaining : list byte;
  failure : option goerror;
  afterClose : option goerror;
  closed : bool
}.

(** The standard library behind the package. *)
Record Externals : Type := mkExternals {
  (** the validation of method and url by [http.NewRequestWithContext] *)
  checkRequest : string -> string -> option goerror;
  (** [http.Client.Do]: status, headers and body of the response, or the
      transport error *)
  roundTrip : Client -> HttpRequest ->
              (Z * gmap string (list string) * Reader) + goerror;
  (** what reading the body of that response returns after [Close] *)
  readAfterClose : Client -> HttpRequest -> option goerror;
  (** [json.Marshal], [xml.Marshal] *)
  json_Marshal : any -> list byte + goerror;
  xml_Marshal : any -> list byte + goerror;
  (** the output that had left the buffer of the XML encoder when it failed *)
  xml_flushed : any -> list byte;
  (** [json.Unmarshal(data, v)], [xml.Unmarshal(data, v)]: the variables after
      the call and its error *)
  json_Unmarshal : list byte -> any -> gmap loc any -> gmap loc any * option goerror;
  xml_Unmarshal : list byte -> any -> gmap loc any -> gmap loc any * option goerror
}.

(** ** The world: package variable, heap, and the calls that left the process *)

Record World : Type := mkWorld {
  (** [var DefaultClientTimeout] *)
  DefaultClientTimeout : Z;
  (** the [http.Client] values that handles point to *)
  clients : gmap loc Client;
  (** response bodies *)
  bodies : gmap loc BodyState;
  (** variables that decoding writes to *)
  vars : gmap loc any;
  (** every call of [http.Client.Do], latest first: the handle, the client
      as it was at the call, and the request *)
  sent : list (loc * Client * HttpRequest)
}.

(** [time.Minute * 1] *)
Definition initialDefaultClientTimeout : Z := 60 * 1000000000.

Definition initialWorld : World :=
  mkWorld initialDefaultClientTimeout ∅ ∅ ∅ [].

Definition set_clients (f : gmap loc Client -> gmap loc Client) (w : World) : World :=
  mkWorld (DefaultClientTimeout w) (f (clients w)) (bodies w) (vars w) (sent w).

Definition set_bodies (f : gmap loc BodyState -> gmap loc BodyState) (w : World) : World :=
  mkWorld (DefaultClientTimeout w) (clients w) (f (bodies w)) (vars w) (sent w).

Definition set_vars (vs : gmap loc any) (w : World) : World :=
  mkWorld (DefaultClientTimeout w) (clients w) (bodies w) vs (sent w).

Definition log_sent (e : loc * Client * HttpRequest) (w : World) : World :=
  mkWorld (DefaultClientTimeout w) (clients w) (bodies w) (vars w) (e :: sent w).

(** [*c], the zero client for a pointer that the heap does not hold *)
Definition deref (w : World) (c : loc) : Client :=
  default (mkClient 0 None) (clients w !! c).

(** [c.Timeout = d] *)
Definition store_Timeout (c : loc) (d : Z) (w : World) : World :=
  set_clients (alter (fun cl => mkClient d (Transport cl)) c) w.

(** [&http.Client{...}] *)
Definition new_client (cl : Client) (w : World) : loc * World :=
  let l := fresh (dom (clients w)) in
  (l, set_clients <[l := cl]> w).

(** ** Response bodies *)

Definition ErrBodyReadAfterClose : goerror :=
  errorString "http: read on closed response body".

(** [io.ReadAll(resp.Body)] *)
Definition Body_ReadAll (b : loc) (w : World) : World * (list byte * option goerror) :=
  match bodies w !! b with
  | None => (w, ([], Some ErrBodyReadAfterClose))
  | Some st =>
      if closed st then (w, ([], afterClose st))
      else (set_bodies <[b := mkBody [] (failure st) (afterClose st) false]> w,
            (remaining st, failure st))
  end.

(** [resp.Body.Close()] *)
Definition Body_Close (b : loc) (w : World) : World :=
  set_bodies
    (alter (fun st => mkBody (remaining st) (failure st) (afterClose st) true) b) w.

Definition isClosed (w : World) (b : loc) : bool :=
  match bodies w !! b with
  | Some st => closed st
  | None => false
  end.

(** ** context.go *)

(** Context keys: the package's own unexported key, and keys of other
    packages. *)
Inductive contextKey : Type :=
| clientContextKey
| foreignKey (name : string).

Inductive contextValue : Type :=
| clientValue (c : option loc)     (* a [*http.Client], [None] for a nil pointer *)
| foreignValue (v : any).

Inductive Context : Type :=
| Background
| WithValue (parent : Context) (key : contextKey) (val : contextValue).

Definition contextKey_eqb (k1 k2 : contextKey) : bool :=
  match k1, k2 with
  | clientContextKey, clientContextKey => true
  | foreignKey a, foreignKey b => String.eqb a b
  | _, _ => false
  end.

(** [ctx.Value(key)] *)
Fixpoint Value (ctx : Context) (key : contextKey) : option contextValue :=
  match ctx with
  | Background => None
  | WithValue parent k v => if contextKey_eqb k key then Some v else Value parent key
  end.

Definition AttachClientToContext (ctx : Context) (c : option loc) : Context :=
  WithValue ctx clientContextKey (clientValue c).

Definition clientFromContext (ctx : Context) (w : World) : loc * World :=
  match Value ctx clientContextKey with
  | Some (clientValue (Some c)) => (c, w)
  | _ => new_client (mkClient (DefaultClientTimeout w) None) w
  end.

(** The handle attached to a context, if there is one and it is not nil. *)
Definition attachedClient (ctx : Context) : option loc :=
  match Value ctx clientContextKey with
  | Some (clientValue (Some c)) => Some c
  | _ => None
  end.

(** ** request.go *)

(** HTTP MIME types. *)
Definition wildcardMIME : string := "*/*".
Definition jsonMIME : string := "application/json".
Definition xmlMIME : string := "application/xml".

Definition newline : byte := x0a.

(** [json.NewEncoder(w).Encode(v)]: "Encode writes the JSON encoding of v to
    the stream, followed by a newline character"; when marshalling fails
    nothing is written. The result is what reached the writer, and the
    error. *)
Definition json_Encoder_Encode (E : Externals) (v : any) : list byte * option goerror :=
  match json_Marshal E v with
  | inl b => (b ++ [newline], None)
  | inr err => ([], Some err)
  end.

(** [xml.NewEncoder(w).Encode(v)] writes the XML encoding of v; the encoder
    writes through a buffer, so when it fails the output flushed so far has
    reached the writer. *)
Definition xml_Encoder_Encode (E : Externals) (v : any) : list byte * option goerror :=
  match xml_Marshal E v with
  | inl b => (b, None)
  | inr err => (xml_flushed E v, Some err)
  end.

(** [pr, pw := io.Pipe(); go func() { pw.CloseWithError(encode(pw)) }()]: the
    read end yields what the encoder wrote, then [io.EOF] when the encoder
    returned nil and its error otherwise. *)
Definition pipeOf (written : list byte * option goerror) : Reader :=
  mkReader (fst written) (snd written).

(** The method of the request that net/http builds: the empty method means
    GET. *)
Definition defaultMethod (method : string) : string :=
  if String.eqb method EmptyString then "GET" else method.

Module Request.

Record t : Type := mk {
  header : gmap string (list string);
  timeout : option Z;
  body : option Reader
}.

Definition New : t := mk ∅ None None.

Definition set_header (h : gmap string (list string)) (r : t) : t :=
  mk h (timeout r) (body r).

Definition WithTimeout (r : t) (d : Z) : t :=
  mk (header r) (Some d) (body r).

Definition WithBody (r : t) (b : Reader) : t :=
  mk (header r) (timeout r) (Some b).

Definition WithJSONBody (E : Externals) (r : t) (v : any) : t :=
  let pr := pipeOf (json_Encoder_Encode E v) in
  mk (Header.Set_ (header r) "Content-Type" jsonMIME) (timeout r) (Some pr).

Definition WithXMLBody (E : Externals) (r : t) (v : any) : t :=
  let pr := pipeOf (xml_Encoder_Encode E v) in
  mk (Header.Set_ (header r) "Content-Type" xmlMIME) (timeout r) (Some pr).

Definition WithHeader (r : t) (key value : string) : t :=
  set_header (Header.Set_ (header r) key value) r.

Definition WithMultiValuedHeader (r : t) (key value : string) : t :=
  set_header (Header.Add (header r) key value) r.

Definition WithContentType (r : t) (s : string) : t :=
  set_header (Header.Set_ (header r) "Content-Type" s) r.

Definition WithBasicAuth (r : t) (username password : string) : t :=
  let auth := username +:+ ":" +:+ password in
  set_header
    (Header.Set_ (header r) "Authorization"
       ("Basic " +:+ Base64.EncodeToString (list_byte_of_string auth))) r.

Definition WithBearerAuthentication (r : t) (token : string) : t :=
  set_header (Header.Set_ (header r) "Authorization" ("Bearer " +:+ token)) r.

(** [http.NewRequestWithContext(ctx, method, url, body)] *)
Definition NewRequestWithContext (E : Externals) (ctx : Context)
    (method url : string) (b : option Reader) : HttpRequest + goerror :=
  match checkRequest E (defaultMethod method) url with
  | Some err => inr err
  | None => inl (mkHttpRequest (defaultMethod method) url ∅ b)
  end.

(** [c.Do(req)]: the call is recorded, and the body of a response becomes a
    new [io.ReadCloser]. *)
Definition Client_Do (E : Externals) (c : loc) (req : HttpRequest) (w : World)
  : World * (Response + goerror) :=
  let cl := deref w c in
  let w := log_sent (c, cl, req) w in
  match roundTrip E cl req with
  | inr err => (w, inr err)
  | inl (status, hdr, content) =>
      let b := fresh (dom (bodies w)) in
      (set_bodies
         <[b := mkBody (stream content) (final content)
                  (readAfterClose E cl req) false]> w,
       inl (mkResponse status hdr b))
  end.

Definition Do (E : Externals) (r : t) (ctx : Context) (method url : string)
    (w : World) : World * (Response + goerror) :=
  match NewRequestWithContext E ctx method url (body r) with
  | inr err => (w, inr err)
  | inl req =>
      let req := mkHttpRequest (Method req) (URL req) (header r) (ReqBody req) in
      let '(c, w) := clientFromContext ctx w in
      let w := match timeout r with
               | Some d => store_Timeout c d w
               | None => w
               end in
      Client_Do E c req w
  end.

End Request.

(** ** result.go *)

(** [Result] *)
Record Result : Type := mkResult {
  Result_Response : Response;
  RawData : list byte
}.

(** The two closures that the package stores in [withResult.unmarshal], with
    the destination they capture. *)
Inductive unmarshalFunc : Type :=
| unmarshalJSONInto (v : any)
| unmarshalXMLInto (v : any).

(** [wr.unmarshal(data)] *)
Definition call_unmarshal (E : Externals) (f : unmarshalFunc) (data : list byte)
    (w : World) : World * option goerror :=
  match f with
  | unmarshalJSONInto v =>
      let '(vs, e) := json_Unmarshal E data v (vars w) in
      (set_vars vs w,
       match e with
       | Some err => Some (Errorf_w "failed to unmarshal JSON: " err)
       | None => None
       end)
  | unmarshalXMLInto v =>
      let '(vs, e) := xml_Unmarshal E data v (vars w) in
      (set_vars vs w,
       match e with
       | Some err => Some (Errorf_w "failed to unmarshal JSON: " err)
       | None => None
       end)
  end.

Module withResult.

Record t : Type := mk {
  req : Request.t;
  unmarshal : option unmarshalFunc
}.

(** The statements of [Do] after [defer resp.Body.Close()]. *)
Definition afterDefer (E : Externals) (wr : t) (resp : Response) (w : World)
  : World * (option Result * option goerror) :=
  let '(w, (data, err)) := Body_ReadAll (Body resp) w in
  match err with
  | Some err => (w, (None, Some (Errorf_w "failed to read response body: " err)))
  | None =>
      match unmarshal wr with
      | Some f =>
          let '(w, err) := call_unmarshal E f data w in
          match err with
          | Some err => (w, (None, Some err))
          | None => (w, (Some (mkResult resp data), None))
          end
      | None => (w, (Some (mkResult resp data), None))
      end
  end.

Definition Do (E : Externals) (wr : t) (ctx : Context) (method url : string)
    (w : World) : World * (option Result * option goerror) :=
  match Request.Do E (req wr) ctx method url w with
  | (w, inr err) => (w, (None, Some err))
  | (w, inl resp) =>
      let '(w, out) := afterDefer E wr resp w in
      (* the deferred call runs when Do returns *)
      (Body_Close (Body resp) w, out)
  end.

End withResult.

Module RequestResults.

(** [Request.WithResult] *)
Definition WithResult (r : Request.t) : withResult.t :=
  withResult.mk r None.

(** [Request.WithJSONResult] *)
Definition WithJSONResult (r : Request.t) (v : any) : withResult.t :=
  let r := if String.eqb (Header.Get (Request.header r) "Accept") EmptyString
           then Request.set_header (Header.Set_ (Request.header r) "Accept" jsonMIME) r
           else r in
  withResult.mk r (Some (unmarshalJSONInto v)).

(** [Request.WithXMLResult] *)
Definition WithXMLResult (r : Request.t) (v : any) : withResult.t :=
  let r := if String.eqb (Header.Get (Request.header r) "Accept") EmptyString
           then Request.set_header (Header.Set_ (Request.header r) "Accept" xmlMIME) r
           else r in
  withResult.mk r (Some (unmarshalXMLInto v)).

End RequestResults.

(** ** A test double for the standard library

    The package's own example swaps the transport for one that repeats the
    request body; [Echo] is that double, with small codecs, used to run the
    definitions on concrete inputs. *)

Module Echo.

Definition dquote : string := String (ascii_of_nat 34) EmptyString.

Definition quote (s : string) : string := dquote +:+ s +:+ dquote.

(** Null, booleans, integers and plain strings. *)
Definition scalarJSON (v : any) : option string :=
  match v with
  | Nil => Some "null"
  | Bool true => Some "true"
  | Bool false => Some "false"
  | Int n => Some (pretty n)
  | Str s => Some (quote s)
  | _ => None
  end.

Fixpoint fieldsJSON (fs : list (string * any)) : option string :=
  match fs with
  | [] => Some EmptyString
  | (k, v) :: rest =>
      match scalarJSON v, fieldsJSON rest with
      | Some s, Some tl =>
          Some (quote k +:+ ":" +:+ s +:+
                (match rest with [] => EmptyString | _ => "," end) +:+ tl)
      | _, _ => None
      end
  end.

(** Renders scalars and structs of scalars; a channel is refused as
    [json.Marshal] refuses it, and the double does not render the other
    values. *)
Definition marshal (v : any) : list byte + goerror :=
  match v with
  | Chan _ => inr (errorString "json: unsupported type: chan int")
  | Struct fs =>
      match fieldsJSON fs with
      | Some body => inl (list_byte_of_string ("{" +:+ body +:+ "}"))
      | None => inr (errorString "json: unsupported type")
      end
  | _ =>
      match scalarJSON v with
      | Some s => inl (list_byte_of_string s)
      | None => inr (errorString "json: unsupported type")
      end
  end.

Fixpoint dropNewlines (bs : list byte) : list byte :=
  match bs with
  | b :: rest => if Byte.eqb b x0a then dropNewlines rest else bs
  | [] => []
  end.

(** Accepts a document that opens with [open] and, trailing newlines apart,
    ends with [close], and stores its text in the variable [v] points to. *)
Definition unmarshal (open close : byte) (msg : string) (data : list byte)
    (v : any) (vs : gmap loc any) : gmap loc any * option goerror :=
  match v, data, head (dropNewlines (rev data)) with
  | Pointer p, b :: _, Some e =>
      if Byte.eqb b open && Byte.eqb e close
      then (<[p := Str (string_of_list_byte data)]> vs, None)
      else (vs, Some (errorString msg))
  | _, _, _ => (vs, Some (errorString msg))
  end.

Definition emptyReader : Reader := mkReader [] None.

Definition E : Externals :=
  mkExternals
    (fun method _ =>
       if allValid method then None
       else Some (errorString "net/http: invalid method"))
    (fun _ req => inl (200%Z, ∅, default emptyReader (ReqBody req)))
    (fun _ _ => None)
    marshal
    marshal
    (fun _ => [])
    (unmarshal "{"%byte "}"%byte "unexpected end of JSON input")
    (unmarshal "<"%byte ">"%byte "XML syntax error on line 1: unexpected EOF").

End Echo.

(** ** Sequences of header calls *)

Inductive headerOp : Type :=
| opSet (key value : string)     (* [WithHeader] *)
| opAdd (key value : string).    (* [WithMultiValuedHeader] *)

Definition applyHeaderOp (r : Request.t) (op : headerOp) : Request.t :=
  match op with
  | opSet k v => Request.WithHeader r k v
  | opAdd k v => Request.WithMultiValuedHeader r k v
  end.

Definition applyHeaderOps (r : Request.t) (ops : list headerOp) : Request.t :=
  foldl applyHeaderOp r ops.

(** [WithMultiValuedHeader] called once for each value, in order. *)
Definition addAll (r : Request.t) (key : string) (values : list string) : Request.t :=
  applyHeaderOps r (map (opAdd key) values).

(** ** Concrete inputs *)

Module Sample.

(** A heap with one client, timeout five seconds, at handle 1. *)
Definition world : World :=
  set_clients <[1%positive := mkClient 5000000000 (Some 1%N)]> initialWorld.

Definition ctx : Context := AttachClientToContext Background (Some 1%positive).

(** [&payload{"hello"}] with [payload] a struct of one string field *)
Definition payload : any := Struct [("text", Str "hello")].

Definition payloadJSON : string :=
  "{" +:+ Echo.quote "text" +:+ ":" +:+ Echo.quote "hello" +:+ "}".

(** A truncated document: an opening brace, a quoted [id] and a colon. *)
Definition truncatedJSON : string := "{" +:+ Echo.quote "id" +:+ ":".

Definition tenSeconds : Z := 10 * 1000000000.

(** A request whose body is the truncated document; the echoing transport
    sends it back as the response body. *)
Definition truncatedRequest : Request.t :=
  Request.WithBody Request.New
    (mkReader (list_byte_of_string truncatedJSON) None).

(** A request whose body breaks after three bytes. *)
Definition brokenRequest : Request.t :=
  Request.WithBody Request.New
    (mkReader (list_byte_of_string "abc") (Some (errorString "unexpected EOF"))).

Definition url : string := "http://localhost".

(** A builder on which the caller added two Accept values, the first one
    empty. *)
Definition emptyThenXML : Request.t :=
  Request.WithMultiValuedHeader
    (Request.WithMultiValuedHeader Request.New "Accept" EmptyString)
    "Accept" "application/xml".

(** The builder of the end-to-end scenario. *)
Definition scenario : Request.t :=
  Request.WithJSONBody Echo.E (Request.WithBasicAuth Request.New "u" "p") payload.

End Sample.

(** ** Auxiliary definitions for the proofs *)

(** All 256 bytes. *)
Definition all_ascii : list ascii := map ascii_of_nat (seq 0 256).

Definition ascii_dec_eqb (a b : ascii) : bool := Ascii.eqb a b.

(** Two bytes with the same lower-case form are canonicalised alike and are
    valid together. *)
Definition fold_step_ok (c1 c2 : ascii) : bool :=
  implb (ascii_dec_eqb (lowerByte c1) (lowerByte c2))
    (ascii_dec_eqb (canonByte true c1) (canonByte true c2)
     && ascii_dec_eqb (canonByte false c1) (canonByte false c2)
     && Bool.eqb (validHeaderFieldByte c1) (validHeaderFieldByte c2)).

(** ** The package variable *)

(** [request.DefaultClientTimeout = d] *)
Definition assign_DefaultClientTimeout (d : Z) (w : World) : World :=
  mkWorld d (clients w) (bodies w) (vars w) (sent w).

(** ** The builder of the earlier revision

    The earlier revision of the package names the type [Builder]; its
    methods have the bodies of the [Request] ones, and [Do] sends with
    [context.Background()]. *)

Module Builder.

Record t : Type := mk {
  header : gmap string (list string);
  timeout : option Z;
  body : option Reader
}.

Definition NewBuilder : t := mk ∅ None None.

Definition DoWithContext (E : Externals) (b : t) (ctx : Context)
    (method url : string) (w : World) : World * (Response + goerror) :=
  match Request.NewRequestWithContext E ctx method url (body b) with
  | inr err => (w, inr err)
  | inl req =>
      let req := mkHttpRequest (Method req) (URL req) (header b) (ReqBody req) in
      let '(c, w) := clientFromContext ctx w in
      let w := match timeout b with
               | Some d => store_Timeout c d w
               | None => w
               end in
      Request.Client_Do E c req w
  end.

Definition Do (E : Externals) (b : t) (method url : string) (w : World)
  : World * (Response + goerror) :=
  DoWithContext E b Background method url w.

Definition JSONBody (E : Externals) (b : t) (data : any) : t :=
  let pr := pipeOf (json_Encoder_Encode E data) in
  mk (Header.Set_ (header b) "Content-Type" "application/json") (timeout b) (Some pr).

Definition XMLBody (E : Externals) (b : t) (data : any) : t :=
  let pr := pipeOf (xml_Encoder_Encode E data) in
  mk (Header.Set_ (header b) "Content-Type" "application/xml") (timeout b) (Some pr).

Definition ContentType (b : t) (s : string) : t :=
  mk (Header.Set_ (header b) "Content-Type" s) (timeout b) (body b).

Definition BasicAuth (b : t) (username password : string) : t :=
  let auth := username +:+ ":" +:+ password in
  mk (Header.Set_ (header b) "Authorization"
        ("Basic " +:+ Base64.EncodeToString (list_byte_of_string auth)))
     (timeout b) (body b).

Definition BearerAuthentication (b : t) (token : string) : t :=
  mk (Header.Set_ (header b) "Authorization" ("Bearer " +:+ token))
     (timeout b) (body b).

Definition MultiValuedHeader (b : t) (key value : string) : t :=
  mk (Header.Add (header b) key value) (timeout b) (body b).

Definition Header (b : t) (key value : string) : t :=
  mk (Header.Set_ (header b) key value) (timeout b) (body b).

Definition Body (b : t) (r : Reader) : t :=
  mk (header b) (timeout b) (Some r).

Definition Timeout (b : t) (d : Z) : t :=
  mk (header b) (Some d) (body b).

End Builder.

(** ** Chains of configuration calls

    A builder is made by [New] followed by calls of the configuration
    methods; [callJSONResult] and [callXMLResult] stand for the effect of the
    result variants on the request they wrap. *)

Inductive builderCall : Type :=
| callTimeout (d : Z)
| callBody (b : Reader)
| callJSONBody (v : any)
| callXMLBody (v : any)
| callHeader (key value : string)
| callMultiValuedHeader (key value : string)
| callContentType (s : string)
| callBasicAuth (username password : string)
| callBearerAuthentication (token : string)
| callJSONResult (v : any)
| callXMLResult (v : any).

Definition applyCall (E : Externals) (r : Request.t) (c : builderCall) : Request.t :=
  match c with
  | callTimeout d => Request.WithTimeout r d
  | callBody b => Request.WithBody r b
  | callJSONBody v => Request.WithJSONBody E r v
  | callXMLBody v => Request.WithXMLBody E r v
  | callHeader k v => Request.WithHeader r k v
  | callMultiValuedHeader k v => Request.WithMultiValuedHeader r k v
  | callContentType s => Request.WithContentType r s
  | callBasicAuth u p => Request.WithBasicAuth r u p
  | callBearerAuthentication t => Request.WithBearerAuthentication r t
  | callJSONResult v => withResult.req (RequestResults.WithJSONResult r v)
  | callXMLResult v => withResult.req (RequestResults.WithXMLResult r v)
  end.

Definition build (E : Externals) (calls : list builderCall) : Request.t :=
  foldl (applyCall E) Request.New calls.

(** Every key of the map is in canonical form and has at least one value. *)
Definition headerWellFormed (h : gmap string (list string)) : Prop :=
  forall key values,
    h !! key = Some values -> CanonicalMIMEHeaderKey key = key /\ values <> [].

(** ** A left inverse of the base64 encoder, for the proofs *)

Module Base64Inverse.

Fixpoint indexOf (c : ascii) (s : string) : N :=
  match s with
  | EmptyString => 0
  | String d rest => if Ascii.eqb c d then 0 else N.succ (indexOf c rest)
  end.

Definition decodeMap (c : ascii) : N := indexOf c Base64.encodeStd.

Definition byteOf (n : N) : byte := default x00 (Byte.of_N n).

Definition quadValue (c0 c1 c2 c3 : ascii) : N :=
  (decodeMap c0 * 262144 + decodeMap c1 * 4096 + decodeMap c2 * 64 + decodeMap c3)%N.

Fixpoint Decode (s : string) : list byte :=
  match s with
  | String c0 (String c1 (String c2 (String c3 rest))) =>
      if Ascii.eqb c2 Base64.StdPadding then
        [byteOf (quadValue c0 c1 "A" "A" / 65536)]
      else if Ascii.eqb c3 Base64.StdPadding then
        let val := quadValue c0 c1 c2 "A" in
        [byteOf (val / 65536); byteOf ((val / 256) mod 256)]
      else
        let val := quadValue c0 c1 c2 c3 in
        byteOf (val / 65536) :: byteOf ((val / 256) mod 256)
          :: byteOf (val mod 256) :: Decode rest
  | _ => []
  end.

Definition sextets : list N := map N.of_nat (seq 0 64).

(** The alphabet has no padding character and no repetition. *)
Definition alphabet_ok (n : N) : bool :=
  negb (Ascii.eqb (Base64.enc n) Base64.StdPadding)
  && (decodeMap (Base64.enc n) =? n)%N.

End Base64Inverse.

(** ** More byte-level checks *)

(** Canonicalising a byte twice changes nothing more, keeps the dash test
    and keeps validity. *)
Definition canon_step_ok (c : ascii) : bool :=
  forallb
    (fun u =>
       ascii_dec_eqb (canonByte u (canonByte u c)) (canonByte u c)
       && Bool.eqb (validHeaderFieldByte (canonByte u c)) (validHeaderFieldByte c))
    [true; false].

(** * Properties *)

(** ** Bytes: checking a property on all 256 of them *)

Lemma all_ascii_complete (c : ascii) : In c all_ascii.
Proof.
  unfold all_ascii. rewrite <- (ascii_nat_embedding c).
  apply in_map, in_seq. pose proof (nat_ascii_bounded c). lia.
Qed.

Lemma forallb_ascii (P : ascii -> bool) :
  forallb P all_ascii = true -> forall c, P c = true.
Proof.
  intros H c. rewrite forallb_forall in H. apply H, all_ascii_complete.
Qed.

Lemma fold_step_table :
  forallb (fun c1 => forallb (fold_step_ok c1) all_ascii) all_ascii = true.
Proof. vm_compute. reflexivity. Qed.

Lemma fold_step (c1 c2 : ascii) :
  lowerByte c1 = lowerByte c2 ->
  (forall u, canonByte u c1 = canonByte u c2)
  /\ validHeaderFieldByte c1 = validHeaderFieldByte c2.
Proof.
  intros Hl.
  pose proof (forallb_ascii _ (forallb_ascii _ fold_step_table c1) c2) as H.
  unfold fold_step_ok, ascii_dec_eqb in H. rewrite Hl, Ascii.eqb_refl in H.
  simpl in H. apply andb_true_iff in H as [H Hv].
  apply andb_true_iff in H as [Ht Hf].
  apply Ascii.eqb_eq in Ht, Hf. apply Bool.eqb_prop in Hv.
  split; [intros []; assumption | assumption].
Qed.

Lemma canonLoop_fold (s1 : string) :
  forall s2 u, ToLower s1 = ToLower s2 -> canonLoop u s1 = canonLoop u s2.
Proof.
  induction s1 as [|c1 s1 IH]; intros [|c2 s2] u H; simpl in *; try discriminate.
  - reflexivity.
  - injection H as Hc Hs. destruct (fold_step c1 c2 Hc) as [Hb _].
    rewrite (Hb u). f_equal. apply IH, Hs.
Qed.

Lemma allValid_fold (s1 : string) :
  forall s2, ToLower s1 = ToLower s2 -> allValid s1 = allValid s2.
Proof.
  induction s1 as [|c1 s1 IH]; intros [|c2 s2] H; simpl in *; try discriminate.
  - reflexivity.
  - injection H as Hc Hs. destruct (fold_step c1 c2 Hc) as [_ Hv].
    rewrite Hv. f_equal. apply IH, Hs.
Qed.

(** Names made of token bytes that differ in case only have one canonical
    form. *)
Lemma canonical_fold (k1 k2 : string) :
  allValid k1 = true -> EqualFoldASCII k1 k2 ->
  CanonicalMIMEHeaderKey k1 = CanonicalMIMEHeaderKey k2.
Proof.
  intros Hv Hf. unfold CanonicalMIMEHeaderKey.
  rewrite <- (allValid_fold k1 k2 Hf), Hv. apply canonLoop_fold, Hf.
Qed.

(** ** Header: set and add *)

Section HeaderFacts.

Implicit Types (h : gmap string (list string)) (r : Request.t).

Lemma Values_Set h key value :
  Header.Values (Header.Set_ h key value) key = [value].
Proof.
  unfold Header.Values, Header.Set_, Header.index.
  by rewrite lookup_insert_eq.
Qed.

Lemma Values_Add h key value :
  Header.Values (Header.Add h key value) key = Header.Values h key ++ [value].
Proof.
  unfold Header.Values, Header.Add, Header.index.
  by rewrite lookup_insert_eq.
Qed.

Lemma Values_Set_other h key value key' :
  CanonicalMIMEHeaderKey key <> CanonicalMIMEHeaderKey key' ->
  Header.Values (Header.Set_ h key value) key' = Header.Values h key'.
Proof.
  intros Hne. unfold Header.Values, Header.Set_, Header.index.
  by rewrite lookup_insert_ne.
Qed.

Lemma Get_Values h key :
  Header.Get h key = hd EmptyString (Header.Values h key).
Proof. unfold Header.Get, Header.Values. by destruct (Header.index _ _). Qed.

Lemma applyHeaderOps_app r ops1 ops2 :
  applyHeaderOps r (ops1 ++ ops2) = applyHeaderOps (applyHeaderOps r ops1) ops2.
Proof. unfold applyHeaderOps. apply foldl_app. Qed.

Lemma Values_addAll values : forall r key,
  Header.Values (Request.header (addAll r key values)) key
  = Header.Values (Request.header r) key ++ values.
Proof.
  unfold addAll, applyHeaderOps.
  induction values as [|v values IH]; intros r key; simpl.
  - by rewrite app_nil_r.
  - rewrite IH. simpl. rewrite Values_Add. by rewrite <- app_assoc.
Qed.

End HeaderFacts.

(** A value set under one spelling is the value read under another. *)
Lemma header_set_seen_under_other_case
    (k1 k2 : string) (h : gmap string (list string)) (v : string) :
  allValid k1 = true -> EqualFoldASCII k1 k2 ->
  Header.Values (Header.Set_ h k1 v) k2 = [v].
Proof.
  intros Hv Hf. unfold Header.Values.
  rewrite <- (canonical_fold k1 k2 Hv Hf). apply Values_Set.
Qed.

(** C6. Whatever header calls came before, [WithHeader key v] leaves exactly
    the one value [v] under [key], and calls of [WithMultiValuedHeader] on
    that key then add their values behind it in call order; starting from any
    builder, consecutive adds append to the values already there. *)
Theorem set_replaces_and_add_accumulates
    (r : Request.t) (prior : list headerOp) (key v : string) (vs : list string) :
  Header.Values
    (Request.header (applyHeaderOps r (prior ++ [opSet key v]))) key = [v]
  /\ Header.Values
       (Request.header
          (applyHeaderOps r (prior ++ opSet key v :: map (opAdd key) vs))) key
     = v :: vs
  /\ Header.Values (Request.header (addAll r key vs)) key
     = Header.Values (Request.header r) key ++ vs.
Proof.
  split; [|split].
  - rewrite applyHeaderOps_app. simpl. apply Values_Set.
  - rewrite (applyHeaderOps_app r prior).
    change (opSet key v :: map (opAdd key) vs)
      with ([opSet key v] ++ map (opAdd key) vs).
    rewrite applyHeaderOps_app.
    change (applyHeaderOps ?r0 (map (opAdd key) vs)) with (addAll r0 key vs).
    rewrite Values_addAll. simpl. by rewrite Values_Set.
  - apply Values_addAll.
Qed.

(** C7 (as amended). For header names made of token bytes only, two
    spellings that differ in ASCII letter case are one header: setting or
    adding under one spelling builds the same builder as under the other, and
    reading under either spelling sees the same values. *)
Theorem header_names_case_insensitive
    (k1 k2 : string) (Hvalid : allValid k1 = true) (Hfold : EqualFoldASCII k1 k2)
    (r : Request.t) (v : string) :
  Request.WithHeader r k1 v = Request.WithHeader r k2 v
  /\ Request.WithMultiValuedHeader r k1 v = Request.WithMultiValuedHeader r k2 v
  /\ Header.Values (Request.header r) k1 = Header.Values (Request.header r) k2
  /\ Header.Get (Request.header r) k1 = Header.Get (Request.header r) k2
  /\ Header.Values (Request.header (Request.WithHeader r k1 v)) k2 = [v]
  /\ Header.Values (Request.header (Request.WithMultiValuedHeader r k1 v)) k2
     = Header.Values (Request.header r) k2 ++ [v].
Proof.
  pose proof (canonical_fold k1 k2 Hvalid Hfold) as Hc.
  repeat split.
  - unfold Request.WithHeader, Header.Set_. by rewrite Hc.
  - unfold Request.WithMultiValuedHeader, Header.Add. by rewrite Hc.
  - unfold Header.Values. by rewrite Hc.
  - unfold Header.Get. by rewrite Hc.
  - unfold Header.Values. rewrite <- Hc. apply Values_Set.
  - unfold Header.Values. rewrite <- Hc. apply Values_Add.
Qed.

Lemma header_names_case_insensitive_witness :
  allValid "content-type" = true
  /\ EqualFoldASCII "content-type" "Content-Type"
  /\ Header.Values
       (Request.header (Request.WithHeader Request.New "content-type" "text/plain"))
       "Content-Type" = ["text/plain"].
Proof.
  split; [reflexivity | split; [reflexivity |]].
  apply (header_names_case_insensitive "content-type" "Content-Type"
           eq_refl eq_refl Request.New "text/plain").
Defined.

(** C7 (as stated) fails: a name with a space is not canonicalised, so a value
    set under ["x y"] is not seen under ["X Y"]. *)
Lemma header_names_case_counterexample :
  EqualFoldASCII "x y" "X Y"
  /\ Header.Get (Request.header (Request.WithHeader Request.New "x y" "1")) "x y" = "1"
  /\ Header.Get (Request.header (Request.WithHeader Request.New "x y" "1")) "X Y"
     = EmptyString
  /\ Request.WithHeader Request.New "x y" "1" <> Request.WithHeader Request.New "X Y" "1".
Proof.
  repeat split; try reflexivity.
  intros H. apply (f_equal (fun r => Header.Get (Request.header r) "X Y")) in H.
  vm_compute in H. discriminate.
Qed.

(** ** Authentication *)

(** Lists taken three elements at a time, as the encoder does. *)
Lemma list_ind3 {A : Type} (P : list A -> Prop) :
  P [] -> (forall a, P [a]) -> (forall a b, P [a; b]) ->
  (forall a b c l, P l -> P (a :: b :: c :: l)) ->
  forall l, P l.
Proof.
  intros H0 H1 H2 H3.
  fix IH 1. intros [|a [|b [|c l]]]; [exact H0 | apply H1 | apply H2 |].
  apply H3, IH.
Qed.

(** The encoding has four characters for every group of three bytes, the last
    group padded. *)
Lemma Encode_length (src : list byte) :
  String.length (Base64.Encode src) = 4 * ((length src + 2) / 3).
Proof.
  induction src as [| a | a b | a b c l IH] using list_ind3; try reflexivity.
  cbn [Base64.Encode String.length length]. rewrite IH.
  replace (S (S (S (length l))) + 2) with (1 * 3 + (length l + 2)) by lia.
  rewrite Nat.div_add_l by lia. lia.
Qed.

Lemma canonical_Authorization :
  CanonicalMIMEHeaderKey "Authorization" = "Authorization".
Proof. reflexivity. Qed.

(** C9. [WithBasicAuth username password] leaves under Authorization exactly
    one value: ["Basic "] followed by the base64 encoding of
    [username ":" password]; earlier Authorization values are gone and the
    other headers, the timeout and the body are as before. *)
Theorem basic_auth_header (r : Request.t) (username password : string) :
  let r' := Request.WithBasicAuth r username password in
  let credentials :=
    Base64.EncodeToString (list_byte_of_string (username +:+ ":" +:+ password)) in
  Request.header r' !! "Authorization" = Some ["Basic " +:+ credentials]
  /\ Header.Values (Request.header r') "authorization" = ["Basic " +:+ credentials]
  /\ Header.Get (Request.header r') "Authorization" = "Basic " +:+ credentials
  /\ (forall key, key <> "Authorization" ->
        Request.header r' !! key = Request.header r !! key)
  /\ Request.timeout r' = Request.timeout r
  /\ Request.body r' = Request.body r.
Proof.
  cbv zeta. unfold Request.WithBasicAuth, Request.set_header. cbn [Request.header
    Request.timeout Request.body].
  repeat split.
  - unfold Header.Set_. rewrite canonical_Authorization. apply lookup_insert_eq.
  - unfold Header.Values, Header.index, Header.Set_.
    change (CanonicalMIMEHeaderKey "authorization") with "Authorization".
    rewrite canonical_Authorization. by rewrite lookup_insert_eq.
  - rewrite Get_Values, Values_Set. reflexivity.
  - intros key Hne. unfold Header.Set_. rewrite canonical_Authorization.
    by apply lookup_insert_ne.
Qed.

Lemma basic_auth_header_witness :
  "X-Trace-Id" <> "Authorization"
  /\ Request.header (Request.WithBasicAuth
                       (Request.WithHeader Request.New "x-trace-id" "477c")
                       "u" "p") !! "X-Trace-Id"
     = Some ["477c"].
Proof.
  split; [discriminate |].
  destruct (basic_auth_header (Request.WithHeader Request.New "x-trace-id" "477c")
              "u" "p") as (_ & _ & _ & Hother & _).
  rewrite (Hother "X-Trace-Id"); [reflexivity | discriminate].
Defined.

(** The package example's credentials. *)
Example basic_auth_example :
  Header.Get
    (Request.header (Request.WithBasicAuth Request.New "username" "password"))
    "Authorization"
  = "Basic dXNlcm5hbWU6cGFzc3dvcmQ=".
Proof. reflexivity. Qed.

(** ** Accept and the result variants *)

Lemma canonical_Accept : CanonicalMIMEHeaderKey "Accept" = "Accept".
Proof. reflexivity. Qed.

Lemma eqb_empty_false (s : string) : s <> EmptyString -> String.eqb s EmptyString = false.
Proof. intros H. by apply String.eqb_neq. Qed.

(** Where the guard of the result variants agrees with their documentation:
    with no Accept value the variant sets its own type, with a non-empty
    first Accept value it leaves the builder as it is, and in every case the
    other headers are kept. *)
Lemma accept_guard_unset_or_nonempty (r : Request.t) (v : any) :
  let rj := withResult.req (RequestResults.WithJSONResult r v) in
  let rx := withResult.req (RequestResults.WithXMLResult r v) in
  (Request.header r !! "Accept" = None ->
     Header.Values (Request.header rj) "Accept" = [jsonMIME]
     /\ Header.Values (Request.header rx) "Accept" = [xmlMIME])
  /\ (forall a rest, Request.header r !! "Accept" = Some (a :: rest) ->
        a <> EmptyString -> rj = r /\ rx = r)
  /\ (forall key, key <> "Accept" ->
        Request.header rj !! key = Request.header r !! key
        /\ Request.header rx !! key = Request.header r !! key).
Proof.
  cbv zeta. unfold RequestResults.WithJSONResult, RequestResults.WithXMLResult.
  cbn [withResult.req]. unfold Header.Get, Header.index.
  rewrite canonical_Accept.
  split; [|split].
  - intros H. rewrite H. simpl. split; apply Values_Set.
  - intros a rest H Ha. rewrite H. simpl. by rewrite eqb_empty_false.
  - intros key Hkey. destruct (String.eqb _ _); [|done].
    simpl. unfold Header.Set_. rewrite canonical_Accept.
    split; by apply lookup_insert_ne.
Qed.

(** C5 (the code at the failing input). The caller has set Accept, to the
    empty value alone or to an empty value followed by application/xml. The
    result variants test [Get "Accept"] against the empty string, take the
    header for unset and replace all of it, although their documentation
    says they set Accept only "if the header is not already set". *)
Theorem accept_set_by_caller_is_overwritten :
  Request.header Sample.emptyThenXML !! "Accept"
  = Some [EmptyString; "application/xml"]
  /\ Header.Values
       (Request.header
          (withResult.req
             (RequestResults.WithJSONResult Sample.emptyThenXML (Pointer 1))))
       "Accept" = ["application/json"]
  /\ Request.header (Request.WithHeader Request.New "Accept" EmptyString)
       !! "Accept" = Some [EmptyString]
  /\ Header.Values
       (Request.header
          (withResult.req
             (RequestResults.WithJSONResult
                (Request.WithHeader Request.New "Accept" EmptyString) (Pointer 1))))
       "Accept" = ["application/json"]
  /\ Header.Values
       (Request.header
          (withResult.req
             (RequestResults.WithXMLResult
                (Request.WithHeader Request.New "Accept" EmptyString) (Pointer 1))))
       "Accept" = ["application/xml"].
Proof. repeat split. Qed.

(** ** Resolving the client *)

Section Resolve.

Implicit Types (w : World) (ctx : Context) (c l : loc).

Lemma new_client_spec cl w :
  let '(c, w') := new_client cl w in
  (c ∉ dom (clients w))
  /\ clients w' = <[c := cl]> (clients w)
  /\ DefaultClientTimeout w' = DefaultClientTimeout w
  /\ bodies w' = bodies w /\ vars w' = vars w /\ sent w' = sent w.
Proof.
  unfold new_client. cbn. repeat split. apply is_fresh.
Qed.

Lemma Value_attach ctx (p : option loc) :
  Value (AttachClientToContext ctx p) clientContextKey = Some (clientValue p).
Proof. reflexivity. Qed.

Lemma clientFromContext_attached ctx w c :
  attachedClient ctx = Some c -> clientFromContext ctx w = (c, w).
Proof.
  unfold attachedClient, clientFromContext.
  destruct (Value ctx clientContextKey) as [[[a|]|]|]; intros H; try discriminate.
  by injection H as ->.
Qed.

Lemma clientFromContext_default ctx w :
  attachedClient ctx = None ->
  clientFromContext ctx w = new_client (mkClient (DefaultClientTimeout w) None) w.
Proof.
  unfold attachedClient, clientFromContext.
  destruct (Value ctx clientContextKey) as [[[a|]|]|]; intros H;
    try discriminate; reflexivity.
Qed.

Lemma attachedClient_None ctx :
  (attachedClient ctx = None) <->
  (forall c, Value ctx clientContextKey <> Some (clientValue (Some c))).
Proof.
  unfold attachedClient.
  destruct (Value ctx clientContextKey) as [[[a|]|]|]; split; try done.
  intros H. by destruct (H a).
Qed.

End Resolve.

(** C4. From a context that carries no client under the package's key, or a
    nil one, [clientFromContext] returns a handle that was not in the heap
    before and that points to a client whose timeout is the value of
    [DefaultClientTimeout] (one minute unless the variable was assigned);
    nothing else in the world changes. From a context made by attaching a
    non-nil handle it returns that very handle and leaves the world alone. *)
Theorem clientFromContext_resolution (ctx : Context) (w : World) :
  ((Value ctx clientContextKey = None
    \/ Value ctx clientContextKey = Some (clientValue None)) ->
   let c := (clientFromContext ctx w).1 in
   let w' := (clientFromContext ctx w).2 in
   (c ∉ dom (clients w))
   /\ clients w' !! c = Some (mkClient (DefaultClientTimeout w) None)
   /\ Timeout (deref w' c) = DefaultClientTimeout w
   /\ (forall l, l <> c -> clients w' !! l = clients w !! l)
   /\ DefaultClientTimeout w' = DefaultClientTimeout w)
  /\ (forall c, clientFromContext (AttachClientToContext ctx (Some c)) w = (c, w))
  /\ DefaultClientTimeout initialWorld = (60 * 1000000000)%Z.
Proof.
  split; [|split; [|reflexivity]].
  - intros Hnone. cbv zeta.
    assert (attachedClient ctx = None) as Ha.
    { unfold attachedClient. by destruct Hnone as [-> | ->]. }
    rewrite (clientFromContext_default _ _ Ha).
    pose proof (new_client_spec (mkClient (DefaultClientTimeout w) None) w) as Hn.
    destruct (new_client _ w) as [c w']. cbn [fst snd].
    destruct Hn as (Hfresh & Hcl & Hd & _).
    split; [exact Hfresh | split; [| split; [| split; [| exact Hd]]]].
    + rewrite Hcl. apply lookup_insert_eq.
    + unfold deref. rewrite Hcl, lookup_insert_eq. reflexivity.
    + intros l Hne. rewrite Hcl. by apply lookup_insert_ne.
  - intros c. by apply clientFromContext_attached.
Qed.

Lemma clientFromContext_resolution_witness :
  (Value Background clientContextKey = None
   \/ Value Background clientContextKey = Some (clientValue None))
  /\ Timeout (deref (clientFromContext Background initialWorld).2
                    (clientFromContext Background initialWorld).1)
     = DefaultClientTimeout initialWorld.
Proof.
  split; [left; reflexivity |].
  destruct (clientFromContext_resolution Background initialWorld) as [H _].
  destruct (H (or_introl eq_refl)) as (_ & _ & Ht & _). exact Ht.
Defined.

(** ** Sending a request *)

Section Dispatch.

Variable E : Externals.

Implicit Types (w : World) (ctx : Context) (c l : loc) (r : Request.t).

Lemma Client_Do_world c req w :
  let w' := (Request.Client_Do E c req w).1 in
  clients w' = clients w
  /\ DefaultClientTimeout w' = DefaultClientTimeout w
  /\ vars w' = vars w
  /\ sent w' = (c, deref w c, req) :: sent w.
Proof.
  unfold Request.Client_Do.
  destruct (roundTrip E _ _) as [[[st hd] rd]|err]; cbn; auto.
Qed.

(** The world in which the round trip starts: the client is resolved and the
    timeout override, if any, is stored in it. *)
Lemma Do_steps r ctx method url w :
  checkRequest E (defaultMethod method) url = None ->
  Request.Do E r ctx method url w
  = let cw := clientFromContext ctx w in
    Request.Client_Do E cw.1
      (mkHttpRequest (defaultMethod method) url (Request.header r) (Request.body r))
      (match Request.timeout r with
       | Some d => store_Timeout cw.1 d cw.2
       | None => cw.2
       end).
Proof.
  intros Hok. unfold Request.Do, Request.NewRequestWithContext. rewrite Hok.
  cbn. by destruct (clientFromContext ctx w).
Qed.

Lemma Do_invalid r ctx method url w err :
  checkRequest E (defaultMethod method) url = Some err ->
  Request.Do E r ctx method url w = (w, inr err).
Proof.
  intros Hbad. unfold Request.Do, Request.NewRequestWithContext. by rewrite Hbad.
Qed.

Lemma store_Timeout_clients c d w :
  clients (store_Timeout c d w)
  = alter (fun cl => mkClient d (Transport cl)) c (clients w).
Proof. reflexivity. Qed.

Lemma deref_store_same c d w :
  is_Some (clients w !! c) ->
  deref (store_Timeout c d w) c = mkClient d (Transport (deref w c)).
Proof.
  intros [cl Hcl]. unfold deref. rewrite store_Timeout_clients.
  rewrite lookup_alter_eq, Hcl. reflexivity.
Qed.

Lemma resolved_in_heap ctx w :
  (forall a, attachedClient ctx = Some a -> is_Some (clients w !! a)) ->
  is_Some (clients (clientFromContext ctx w).2 !! (clientFromContext ctx w).1).
Proof.
  intros Hheap. destruct (attachedClient ctx) as [a|] eqn:Ha.
  - rewrite (clientFromContext_attached _ _ _ Ha). cbn. by apply Hheap.
  - rewrite (clientFromContext_default _ _ Ha). cbn.
    rewrite lookup_insert_eq. by eexists.
Qed.

Lemma resolved_frame ctx w l :
  l <> (clientFromContext ctx w).1 ->
  clients (clientFromContext ctx w).2 !! l = clients w !! l.
Proof.
  intros Hne. destruct (attachedClient ctx) as [a|] eqn:Ha.
  - by rewrite (clientFromContext_attached _ _ _ Ha).
  - rewrite (clientFromContext_default _ _ Ha) in *. cbn in *.
    by rewrite lookup_insert_ne.
Qed.

Lemma resolved_default_timeout ctx w :
  DefaultClientTimeout (clientFromContext ctx w).2 = DefaultClientTimeout w.
Proof.
  destruct (attachedClient ctx) as [a|] eqn:Ha.
  - by rewrite (clientFromContext_attached _ _ _ Ha).
  - by rewrite (clientFromContext_default _ _ Ha).
Qed.

End Dispatch.

(** C8. When a timeout override [d] is set and the request can be built,
    [Do] stores [d] in the client that the resolved handle points to (the
    attached handle itself when the context carries one, a handle that did not
    exist before otherwise) and sends the request with it. No other client of
    the heap changes, nor does [DefaultClientTimeout]. A later dispatch
    without override whose context does not carry that handle therefore runs
    with the timeout it would have had anyway: that of its own attached
    client as it was, or the default. *)
Theorem timeout_override_in_place
    (E : Externals) (r : Request.t) (ctx : Context) (method url : string)
    (w : World) (d : Z)
    (Hd : Request.timeout r = Some d)
    (Hok : checkRequest E (defaultMethod method) url = None)
    (Hheap : forall a, attachedClient ctx = Some a -> is_Some (clients w !! a)) :
  let c := (clientFromContext ctx w).1 in
  let w' := (Request.Do E r ctx method url w).1 in
  match attachedClient ctx with
  | Some a => c = a
  | None => c ∉ dom (clients w)
  end
  /\ (exists tr, clients w' !! c = Some (mkClient d tr)
        /\ head (sent w')
           = Some (c, mkClient d tr,
                   mkHttpRequest (defaultMethod method) url (Request.header r) (Request.body r)))
  /\ (forall l, l <> c -> clients w' !! l = clients w !! l)
  /\ DefaultClientTimeout w' = DefaultClientTimeout w
  /\ (forall r2 ctx2 method2 url2,
        checkRequest E (defaultMethod method2) url2 = None ->
        attachedClient ctx2 <> Some c ->
        (forall a, attachedClient ctx2 = Some a -> is_Some (clients w !! a)) ->
        exists c2 cl2 req2,
          head (sent (Request.Do E r2 ctx2 method2 url2 w').1) = Some (c2, cl2, req2)
          /\ c2 <> c
          /\ Timeout cl2 = match Request.timeout r2, attachedClient ctx2 with
                           | Some d2, _ => d2
                           | None, Some a => Timeout (deref w a)
                           | None, None => DefaultClientTimeout w
                           end).
Proof.
  cbv zeta. rewrite (Do_steps E r ctx method url w Hok). cbv zeta. rewrite Hd.
  set (c := (clientFromContext ctx w).1).
  set (w1 := (clientFromContext ctx w).2).
  set (req := mkHttpRequest (defaultMethod method) url (Request.header r)
                (Request.body r)).
  pose proof (Client_Do_world E c req (store_Timeout c d w1)) as Hw.
  cbv zeta in Hw. destruct Hw as (Hcl & Hdef & _ & Hsent).
  set (w' := (Request.Client_Do E c req (store_Timeout c d w1)).1) in *.
  pose proof (resolved_in_heap ctx w Hheap) as Hin. fold c w1 in Hin.
  assert (forall l, l <> c -> clients w' !! l = clients w !! l) as Hframe.
  { intros l Hne. rewrite Hcl, store_Timeout_clients.
    rewrite lookup_alter_ne by done. by apply resolved_frame. }
  assert (DefaultClientTimeout w' = DefaultClientTimeout w) as Hdef'.
  { rewrite Hdef. apply resolved_default_timeout. }
  split; [|split; [|split; [|split]]]; try assumption.
  - subst c. destruct (attachedClient ctx) as [a|] eqn:Ha.
    + by rewrite (clientFromContext_attached _ _ _ Ha).
    + rewrite (clientFromContext_default _ _ Ha). cbn. apply is_fresh.
  - exists (Transport (deref w1 c)). split.
    + rewrite Hcl, store_Timeout_clients, lookup_alter_eq.
      destruct Hin as [cl Hcl1]. unfold deref. by rewrite Hcl1.
    + rewrite Hsent. cbn. by rewrite deref_store_same.
  - intros r2 ctx2 method2 url2 Hok2 Hother Hheap2.
    rewrite (Do_steps E r2 ctx2 method2 url2 w' Hok2). cbv zeta.
    set (c2 := (clientFromContext ctx2 w').1).
    set (w2 := (clientFromContext ctx2 w').2).
    assert (c2 <> c) as Hc2.
    { subst c2. destruct (attachedClient ctx2) as [a|] eqn:Ha.
      - rewrite (clientFromContext_attached _ _ _ Ha). cbn. congruence.
      - rewrite (clientFromContext_default _ _ Ha). cbn. intros Heq.
        assert (c ∈ dom (clients w')) as Hdom.
        { apply elem_of_dom. rewrite Hcl, store_Timeout_clients, lookup_alter_eq.
          destruct Hin as [cl Hcl1]. rewrite Hcl1. by eexists. }
        rewrite <- Heq in Hdom. by apply is_fresh in Hdom. }
    assert (is_Some (clients w2 !! c2)) as Hin2.
    { apply resolved_in_heap. intros a Ha. rewrite Hframe; [by apply Hheap2|].
      congruence. }
    assert (deref w2 c2 = match attachedClient ctx2 with
                          | Some a => deref w a
                          | None => mkClient (DefaultClientTimeout w) None
                          end) as Hderef.
    { subst c2 w2. destruct (attachedClient ctx2) as [a|] eqn:Ha.
      - rewrite (clientFromContext_attached _ _ _ Ha). cbn [fst snd].
        unfold deref. rewrite Hframe; [done | congruence].
      - rewrite (clientFromContext_default _ _ Ha). cbn [fst snd].
        unfold deref, new_client. cbn. rewrite lookup_insert_eq. cbn.
        by rewrite Hdef'. }
    match goal with
    | |- context [Request.Client_Do E c2 ?req2 ?w0] =>
        pose proof (Client_Do_world E c2 req2 w0) as Hw2
    end.
    cbv zeta in Hw2. destruct Hw2 as (_ & _ & _ & Hsent2).
    rewrite Hsent2. cbn [head]. do 3 eexists.
    split; [reflexivity | split; [exact Hc2 |]].
    destruct (Request.timeout r2) as [d2|].
    + by rewrite deref_store_same.
    + rewrite Hderef. by destruct (attachedClient ctx2).
Qed.

Lemma timeout_override_in_place_witness :
  Request.timeout (Request.WithTimeout Request.New Sample.tenSeconds)
  = Some Sample.tenSeconds
  /\ checkRequest Echo.E "POST" "http://localhost" = None
  /\ (forall a, attachedClient Sample.ctx = Some a ->
        is_Some (clients Sample.world !! a))
  /\ exists tr,
       clients
         (Request.Do Echo.E (Request.WithTimeout Request.New Sample.tenSeconds)
            Sample.ctx "POST" "http://localhost" Sample.world).1 !! 1%positive
       = Some (mkClient Sample.tenSeconds tr)
       /\ head (sent
            (Request.Do Echo.E (Request.WithTimeout Request.New Sample.tenSeconds)
               Sample.ctx "POST" "http://localhost" Sample.world).1)
          = Some (1%positive, mkClient Sample.tenSeconds tr,
                  mkHttpRequest "POST" "http://localhost" ∅ None).
Proof.
  assert (forall a, attachedClient Sample.ctx = Some a ->
                    is_Some (clients Sample.world !! a)) as Hheap.
  { intros a Ha. injection Ha as <-. eexists. reflexivity. }
  split; [reflexivity | split; [reflexivity | split; [exact Hheap |]]].
  destruct (timeout_override_in_place Echo.E
              (Request.WithTimeout Request.New Sample.tenSeconds)
              Sample.ctx "POST" "http://localhost" Sample.world Sample.tenSeconds
              eq_refl eq_refl Hheap) as (_ & Hc & _).
  exact Hc.
Defined.

(** ** Bodies built by the encoders *)

Lemma canonical_ContentType :
  CanonicalMIMEHeaderKey "Content-Type" = "Content-Type".
Proof. reflexivity. Qed.

(** C3 (as amended). If [v] marshals to the bytes [b], then after
    [WithJSONBody v] the request handed to the client has a body that reads
    as [b] followed by one newline byte and then ends without error, and its
    Content-Type is the single value application/json whatever was set
    before; a later [WithContentType s] or [WithHeader "content-type" s]
    replaces it by [s]. *)
Theorem json_body_dispatch
    (E : Externals) (r : Request.t) (v : any) (b : list byte)
    (ctx : Context) (method url : string) (w : World)
    (Hmarshal : json_Marshal E v = inl b)
    (Hok : checkRequest E (defaultMethod method) url = None) :
  let r' := Request.WithJSONBody E r v in
  let w' := (Request.Do E r' ctx method url w).1 in
  (exists c cl rd,
      head (sent w')
      = Some (c, cl, mkHttpRequest (defaultMethod method) url (Request.header r') (Some rd))
      /\ ReadAll rd = (b ++ [newline], None))
  /\ Header.Values (Request.header r') "Content-Type" = [jsonMIME]
  /\ (forall s,
        Header.Values (Request.header (Request.WithContentType r' s)) "Content-Type"
        = [s]
        /\ Header.Values
             (Request.header (Request.WithHeader r' "content-type" s)) "Content-Type"
           = [s]).
Proof.
  cbv zeta. split; [|split].
  - rewrite (Do_steps E _ ctx method url w Hok). cbv zeta.
    match goal with
    | |- context [Request.Client_Do E ?c ?req ?w0] =>
        pose proof (Client_Do_world E c req w0) as Hw
    end.
    cbv zeta in Hw. destruct Hw as (_ & _ & _ & Hsent). rewrite Hsent. cbn [head].
    do 3 eexists. split; [reflexivity|].
    unfold ReadAll, pipeOf, json_Encoder_Encode. by rewrite Hmarshal.
  - apply Values_Set.
  - intros s. split; [apply Values_Set|].
    apply (header_set_seen_under_other_case "content-type" "Content-Type");
      reflexivity.
Qed.

Lemma json_body_dispatch_witness :
  json_Marshal Echo.E Sample.payload
  = inl (list_byte_of_string Sample.payloadJSON)
  /\ checkRequest Echo.E "POST" Sample.url = None
  /\ exists c cl rd,
      head (sent (Request.Do Echo.E
                    (Request.WithJSONBody Echo.E Request.New Sample.payload)
                    Sample.ctx "POST" Sample.url Sample.world).1)
      = Some (c, cl,
              mkHttpRequest "POST" Sample.url
                (Request.header
                   (Request.WithJSONBody Echo.E Request.New Sample.payload))
                (Some rd))
      /\ ReadAll rd = (list_byte_of_string Sample.payloadJSON ++ [newline], None).
Proof.
  split; [reflexivity | split; [reflexivity |]].
  destruct (json_body_dispatch Echo.E Request.New Sample.payload
              (list_byte_of_string Sample.payloadJSON)
              Sample.ctx "POST" Sample.url Sample.world eq_refl eq_refl)
    as (Hbody & _).
  exact Hbody.
Defined.

(** C3 (as stated) fails: the body that is sent is one byte longer than the
    serialization of the value, because the encoder ends it with a newline. *)
Lemma json_body_counterexample :
  json_Marshal Echo.E Sample.payload
  = inl (list_byte_of_string Sample.payloadJSON)
  /\ exists c cl rd,
      head (sent (Request.Do Echo.E
                    (Request.WithJSONBody Echo.E Request.New Sample.payload)
                    Sample.ctx "POST" Sample.url Sample.world).1)
      = Some (c, cl,
              mkHttpRequest "POST" Sample.url
                (Request.header
                   (Request.WithJSONBody Echo.E Request.New Sample.payload))
                (Some rd))
      /\ stream rd <> list_byte_of_string Sample.payloadJSON
      /\ length (stream rd)
         = S (length (list_byte_of_string Sample.payloadJSON)).
Proof.
  split; [reflexivity |].
  do 3 eexists. split; [reflexivity |]. split; [|reflexivity].
  intros H. apply (f_equal (@length byte)) in H. vm_compute in H. discriminate.
Qed.

(** ** Decoding *)

Lemma HasPrefix_append (p s : string) : HasPrefix (p +:+ s) p = true.
Proof.
  induction p as [|c p IH]; simpl.
  - reflexivity.
  - by rewrite Ascii.eqb_refl, IH.
Qed.

Lemma HasPrefix_trans_append (p q s : string) :
  HasPrefix p q = true -> HasPrefix (p +:+ s) q = true.
Proof.
  revert q. induction p as [|c p IH]; intros [|d q]; simpl; try done.
  intros H. apply andb_true_iff in H as [-> H]. by rewrite IH.
Qed.

Lemma Contains_append (p t s : string) :
  Contains t s = true -> Contains (p +:+ t) s = true.
Proof.
  intros H. induction p as [|c p IH]; [exact H|].
  change (String c p +:+ t) with (String c (p +:+ t)).
  cbn [Contains]. rewrite IH. apply orb_true_r.
Qed.

(** C10 (as amended). When the XML decoder rejects the bytes with error [e],
    the decode function installed by [WithXMLResult] returns the error made
    by [fmt.Errorf("failed to unmarshal JSON: %w", e)]: it unwraps to [e], and
    its text is "failed to unmarshal JSON: ", the prefix of the JSON variant,
    followed by the text of [e]. So the prefix names JSON, not XML, and
    whatever the text of [e] contains, the name of its format included, is
    contained in the text of the error. The JSON variant builds its error
    with the same prefix. *)
Theorem xml_decode_error_prefix
    (E : Externals) (r : Request.t) (v : any) (data : list byte) (w : World)
    (vs : gmap loc any) (e : goerror)
    (Hfail : xml_Unmarshal E data v (vars w) = (vs, Some e)) :
  (exists f err,
      withResult.unmarshal (RequestResults.WithXMLResult r v) = Some f
      /\ (call_unmarshal E f data w).2 = Some err
      /\ Unwrap err = Some e
      /\ Error err = "failed to unmarshal JSON: " +:+ Error e
      /\ HasPrefix (Error err) "failed to unmarshal JSON:" = true
      /\ (forall s, Contains (Error e) s = true -> Contains (Error err) s = true))
  /\ (forall vs' e',
        json_Unmarshal E data v (vars w) = (vs', Some e') ->
        exists f err,
          withResult.unmarshal (RequestResults.WithJSONResult r v) = Some f
          /\ (call_unmarshal E f data w).2 = Some err
          /\ Unwrap err = Some e'
          /\ Error err = "failed to unmarshal JSON: " +:+ Error e').
Proof.
  split.
  - exists (unmarshalXMLInto v), (Errorf_w "failed to unmarshal JSON: " e).
    split; [reflexivity|]. split; [cbn; by rewrite Hfail|].
    split; [reflexivity|]. split; [reflexivity|].
    cbn [Error Errorf_w]. split.
    + apply HasPrefix_trans_append. reflexivity.
    + intros s Hs. by apply Contains_append.
  - intros vs' e' Hj.
    exists (unmarshalJSONInto v), (Errorf_w "failed to unmarshal JSON: " e').
    split; [reflexivity|]. split; [cbn; by rewrite Hj|]. by split.
Qed.

Lemma xml_decode_error_prefix_witness :
  xml_Unmarshal Echo.E (list_byte_of_string "<a") (Pointer 1)
    (vars Sample.world)
  = (vars Sample.world,
     Some (errorString "XML syntax error on line 1: unexpected EOF"))
  /\ exists f err,
       withResult.unmarshal (RequestResults.WithXMLResult Request.New (Pointer 1))
       = Some f
       /\ (call_unmarshal Echo.E f (list_byte_of_string "<a") Sample.world).2
          = Some err
       /\ Unwrap err
          = Some (errorString "XML syntax error on line 1: unexpected EOF")
       /\ Error err
          = "failed to unmarshal JSON: XML syntax error on line 1: unexpected EOF"
       /\ HasPrefix (Error err) "failed to unmarshal JSON:" = true.
Proof.
  split; [reflexivity |].
  destruct (xml_decode_error_prefix Echo.E Request.New (Pointer 1)
              (list_byte_of_string "<a") Sample.world (vars Sample.world)
              (errorString "XML syntax error on line 1: unexpected EOF") eq_refl)
    as [(f & err & Hf & Hcall & Hun & Htext & Hpre & _) _].
  exists f, err. repeat split; assumption.
Defined.

(** C10 (as stated) fails: the XML decoder rejects the unfinished element,
    and the text of the error that the decode function returns, for all its
    JSON prefix, contains "XML", which comes with the text of the wrapped
    error. *)
Lemma xml_decode_error_text_counterexample :
  exists err,
    (call_unmarshal Echo.E (unmarshalXMLInto (Pointer 1))
       (list_byte_of_string "<a") Sample.world).2 = Some err
    /\ Error err
       = "failed to unmarshal JSON: XML syntax error on line 1: unexpected EOF"
    /\ HasPrefix (Error err) "failed to unmarshal JSON:" = true
    /\ Contains (Error err) "XML" = true.
Proof. eexists. repeat split. Qed.

(** ** Results: reading, decoding and closing the body *)

Section Results.

Variable E : Externals.

Implicit Types (w : World) (b : loc) (wr : withResult.t) (resp : Response).

Lemma Client_Do_success c req w w1 resp :
  Request.Client_Do E c req w = (w1, inl resp) ->
  exists st, bodies w1 !! Body resp = Some st /\ closed st = false.
Proof.
  unfold Request.Client_Do.
  destruct (roundTrip E _ _) as [[[status hdr] content]|err]; [|discriminate].
  intros H. injection H as <- <-. cbn. rewrite lookup_insert_eq. by eexists.
Qed.

Lemma Do_success_body r ctx method url w w1 resp :
  Request.Do E r ctx method url w = (w1, inl resp) ->
  exists st, bodies w1 !! Body resp = Some st /\ closed st = false.
Proof.
  destruct (checkRequest E (defaultMethod method) url) as [err|] eqn:Hc.
  - by rewrite (Do_invalid E r ctx method url w err Hc).
  - rewrite (Do_steps E r ctx method url w Hc). apply Client_Do_success.
Qed.

Lemma Body_ReadAll_keeps b w :
  is_Some (bodies w !! b) -> is_Some (bodies (Body_ReadAll b w).1 !! b).
Proof.
  intros [st Hst]. unfold Body_ReadAll. rewrite Hst.
  destruct (closed st); cbn; [by rewrite Hst|].
  rewrite lookup_insert_eq. by eexists.
Qed.

Lemma Body_ReadAll_open b w st :
  bodies w !! b = Some st -> closed st = false ->
  (Body_ReadAll b w).2 = (remaining st, failure st).
Proof. intros Hst Hc. unfold Body_ReadAll. by rewrite Hst, Hc. Qed.

Lemma call_unmarshal_bodies f data w :
  bodies (call_unmarshal E f data w).1 = bodies w.
Proof.
  destruct f as [v|v]; cbn.
  - by destruct (json_Unmarshal E data v (vars w)).
  - by destruct (xml_Unmarshal E data v (vars w)).
Qed.

Lemma afterDefer_keeps wr resp w :
  is_Some (bodies w !! Body resp) ->
  is_Some (bodies (withResult.afterDefer E wr resp w).1 !! Body resp).
Proof.
  intros Hb. apply Body_ReadAll_keeps in Hb. unfold withResult.afterDefer.
  destruct (Body_ReadAll (Body resp) w) as [w1 [data [err|]]]; cbn in *; [done|].
  destruct (withResult.unmarshal wr) as [f|]; [|done].
  pose proof (call_unmarshal_bodies f data w1) as Hu.
  destruct (call_unmarshal E f data w1) as [w2 [err|]]; cbn in *; by rewrite Hu.
Qed.

Lemma Body_Close_closed b w :
  is_Some (bodies w !! b) -> isClosed (Body_Close b w) b = true.
Proof.
  intros [st Hst]. unfold isClosed, Body_Close. cbn.
  by rewrite lookup_alter_eq, Hst.
Qed.

Lemma Body_ReadAll_closed b w st :
  bodies w !! b = Some st -> closed st = true ->
  (Body_ReadAll b w).2 = ([], afterClose st).
Proof. intros Hst Hc. unfold Body_ReadAll. by rewrite Hst, Hc. Qed.

Lemma Body_ReadAll_afterClose b w st :
  bodies w !! b = Some st ->
  exists st', bodies (Body_ReadAll b w).1 !! b = Some st'
              /\ afterClose st' = afterClose st.
Proof.
  intros Hst. unfold Body_ReadAll. rewrite Hst.
  destruct (closed st); cbn; [by eexists|].
  rewrite lookup_insert_eq. by eexists.
Qed.

Lemma afterDefer_afterClose wr resp w st :
  bodies w !! Body resp = Some st ->
  exists st', bodies (withResult.afterDefer E wr resp w).1 !! Body resp = Some st'
              /\ afterClose st' = afterClose st.
Proof.
  intros Hst. apply Body_ReadAll_afterClose in Hst. unfold withResult.afterDefer.
  destruct (Body_ReadAll (Body resp) w) as [w1 [data [err|]]]; cbn in *; [done|].
  destruct (withResult.unmarshal wr) as [f|]; [|done].
  pose proof (call_unmarshal_bodies f data w1) as Hu.
  destruct (call_unmarshal E f data w1) as [w2 [err|]]; cbn in *; by rewrite Hu.
Qed.

(** What [withResult.Do] returns once the request went through. *)
Lemma withResult_Do_success wr ctx method url w w1 resp :
  Request.Do E (withResult.req wr) ctx method url w = (w1, inl resp) ->
  withResult.Do E wr ctx method url w
  = (Body_Close (Body resp) (withResult.afterDefer E wr resp w1).1,
     (withResult.afterDefer E wr resp w1).2).
Proof.
  intros Hdo. unfold withResult.Do. rewrite Hdo.
  by destruct (withResult.afterDefer E wr resp w1).
Qed.

(** A body that reads well and a decoder that fails: the error is the
    decoder's and there is no [Result]. *)
Lemma withResult_Do_decode_failure wr ctx method url w w1 resp st f err :
  Request.Do E (withResult.req wr) ctx method url w = (w1, inl resp) ->
  bodies w1 !! Body resp = Some st -> closed st = false -> failure st = None ->
  withResult.unmarshal wr = Some f ->
  (call_unmarshal E f (remaining st) (Body_ReadAll (Body resp) w1).1).2 = Some err ->
  (withResult.Do E wr ctx method url w).2 = (None, Some err).
Proof.
  intros Hdo Hst Hopen Hnofail Hf Hcall.
  rewrite (withResult_Do_success _ _ _ _ _ _ _ Hdo). cbn [snd].
  unfold withResult.afterDefer.
  pose proof (Body_ReadAll_open _ _ _ Hst Hopen) as Hread.
  destruct (Body_ReadAll (Body resp) w1) as [w2 [data rerr]]. cbn in Hread, Hcall.
  injection Hread as -> ->. rewrite Hnofail, Hf.
  destruct (call_unmarshal E f (remaining st) w2) as [w3 oerr]. cbn in Hcall.
  by subst oerr.
Qed.

End Results.

(** C2. Once [Request.Do] has returned a response, [withResult.Do] returns
    with the body of that response closed, the body having been open when the
    response arrived; this holds whether the read and the decoding succeed or
    not. If reading the body ends in an error [e], [Do] returns no result and
    the error [fmt.Errorf("failed to read response body: %w", e)]. Reading the
    body after [Do] yields no byte and ends the way the body of that response
    ends once it is closed (with [ErrBodyReadAfterClose] for the bodies of
    net/http's own transport). *)
Theorem body_closed_on_every_path
    (E : Externals) (wr : withResult.t) (ctx : Context) (method url : string)
    (w w1 : World) (resp : Response)
    (Hdo : Request.Do E (withResult.req wr) ctx method url w = (w1, inl resp)) :
  let w' := (withResult.Do E wr ctx method url w).1 in
  let out := (withResult.Do E wr ctx method url w).2 in
  isClosed w1 (Body resp) = false
  /\ isClosed w' (Body resp) = true
  /\ (forall data e,
        (Body_ReadAll (Body resp) w1).2 = (data, Some e) ->
        out = (None, Some (Errorf_w "failed to read response body: " e)))
  /\ (forall st,
        bodies w1 !! Body resp = Some st ->
        (Body_ReadAll (Body resp) w').2 = ([], afterClose st)).
Proof.
  cbv zeta. rewrite (withResult_Do_success E _ _ _ _ _ _ _ Hdo). cbn [fst snd].
  destruct (Do_success_body E _ _ _ _ _ _ _ Hdo) as (st & Hst & Hopen).
  assert (isClosed
            (Body_Close (Body resp) (withResult.afterDefer E wr resp w1).1)
            (Body resp) = true) as Hclosed.
  { apply Body_Close_closed, afterDefer_keeps. by eexists. }
  split; [|split; [exact Hclosed | split]].
  - unfold isClosed. by rewrite Hst.
  - intros data e Hread. unfold withResult.afterDefer.
    destruct (Body_ReadAll (Body resp) w1) as [w2 [data' rerr]].
    cbn in Hread. injection Hread as -> ->. reflexivity.
  - intros st0 Hst0.
    destruct (afterDefer_afterClose E wr resp w1 st0 Hst0) as (st' & Hst' & Hac).
    rewrite <- Hac.
    apply (Body_ReadAll_closed _ _
             (mkBody (remaining st') (failure st') (afterClose st') true));
      [|reflexivity].
    unfold Body_Close. cbn. by rewrite lookup_alter_eq, Hst'.
Qed.

Lemma body_closed_on_every_path_witness :
  exists w1 resp,
    Request.Do Echo.E
      (withResult.req (RequestResults.WithJSONResult Sample.brokenRequest (Pointer 1)))
      Sample.ctx "POST" Sample.url Sample.world = (w1, inl resp)
    /\ isClosed
         (withResult.Do Echo.E
            (RequestResults.WithJSONResult Sample.brokenRequest (Pointer 1))
            Sample.ctx "POST" Sample.url Sample.world).1 (Body resp) = true
    /\ (withResult.Do Echo.E
          (RequestResults.WithJSONResult Sample.brokenRequest (Pointer 1))
          Sample.ctx "POST" Sample.url Sample.world).2
       = (None,
          Some (Errorf_w "failed to read response body: "
                  (errorString "unexpected EOF"))).
Proof.
  do 2 eexists. split; [reflexivity |].
  match goal with
  | |- context [isClosed _ (Body ?resp)] =>
      destruct (body_closed_on_every_path Echo.E
                  (RequestResults.WithJSONResult Sample.brokenRequest (Pointer 1))
                  Sample.ctx "POST" Sample.url Sample.world _ resp eq_refl)
        as (_ & Hclosed & Hread & _)
  end.
  split; [exact Hclosed |].
  apply (Hread (list_byte_of_string "abc") (errorString "unexpected EOF")).
  reflexivity.
Defined.

(** C1 (the code at the failing input). The response body is the truncated
    document, the JSON decoder rejects it, and [withResult.Do] returns the
    wrapped decode error together with a nil [Result]: the caller receives no
    response at all. *)
Theorem decode_failure_returns_nil_result :
  (exists w1 resp,
      Request.Do Echo.E
        (withResult.req
           (RequestResults.WithJSONResult Sample.truncatedRequest (Pointer 1)))
        Sample.ctx "POST" Sample.url Sample.world = (w1, inl resp)
      /\ StatusCode resp = 200%Z
      /\ (Body_ReadAll (Body resp) w1).2
         = (list_byte_of_string Sample.truncatedJSON, None))
  /\ (withResult.Do Echo.E
        (RequestResults.WithJSONResult Sample.truncatedRequest (Pointer 1))
        Sample.ctx "POST" Sample.url Sample.world).2
     = (None,
        Some (wrapError "failed to unmarshal JSON: unexpected end of JSON input"
                (errorString "unexpected end of JSON input"))).
Proof. split; [do 2 eexists; repeat split | reflexivity]. Qed.

(** ** The definitions on concrete inputs *)

Example canon_accept : CanonicalMIMEHeaderKey "accept" = "Accept".
Proof. reflexivity. Qed.

Example canon_trace : CanonicalMIMEHeaderKey "x-trace-id" = "X-Trace-Id".
Proof. reflexivity. Qed.

Example canon_mixed : CanonicalMIMEHeaderKey "cONTENT-tYPE" = "Content-Type".
Proof. reflexivity. Qed.

Example canon_space : CanonicalMIMEHeaderKey "x y" = "x y".
Proof. reflexivity. Qed.

Example base64_rfc4648 :
  map (fun s => Base64.EncodeToString (list_byte_of_string s))
    [EmptyString; "f"; "fo"; "foo"; "foob"; "fooba"; "foobar"]
  = [EmptyString; "Zg=="; "Zm8="; "Zm9v"; "Zm9vYg=="; "Zm9vYmE="; "Zm9vYmFy"].
Proof. reflexivity. Qed.

Example base64_foobar :
  Base64.EncodeToString (list_byte_of_string "foobar") = "Zm9vYmFy".
Proof. reflexivity. Qed.

Example base64_pad1 : Base64.EncodeToString (list_byte_of_string "fo") = "Zm8=".
Proof. reflexivity. Qed.

Example base64_pad2 : Base64.EncodeToString (list_byte_of_string "f") = "Zg==".
Proof. reflexivity. Qed.

Example base64_credentials :
  Base64.EncodeToString (list_byte_of_string "username:password")
  = "dXNlcm5hbWU6cGFzc3dvcmQ=".
Proof. reflexivity. Qed.

Example canon_common : CanonicalMIMEHeaderKey "ACCEPT-encoding" = "Accept-Encoding".
Proof. reflexivity. Qed.

(** The end-to-end scenario: basic authentication, a JSON body, and a
    transport that echoes the request body with status 200. *)
Example echo_scenario :
  exists resp,
    (withResult.Do Echo.E (RequestResults.WithResult Sample.scenario)
       Sample.ctx "POST" Sample.url Sample.world).2
    = (Some (mkResult resp
               (list_byte_of_string Sample.payloadJSON ++ [newline])), None)
    /\ StatusCode resp = 200%Z
    /\ Header.Get (Request.header Sample.scenario) "Authorization" = "Basic dTpw"
    /\ Header.Get (Request.header Sample.scenario) "Content-Type" = "application/json".
Proof. eexists. repeat split. Qed.

(** A well-formed document is decoded into the destination and the result
    carries the response. *)
Example decode_success :
  exists resp,
    (withResult.Do Echo.E
       (RequestResults.WithJSONResult
          (Request.WithJSONBody Echo.E Request.New Sample.payload) (Pointer 1))
       Sample.ctx "POST" Sample.url Sample.world).2
    = (Some (mkResult resp
               (list_byte_of_string Sample.payloadJSON ++ [newline])), None).
Proof. eexists. reflexivity. Qed.

(** An invalid method stops [Do] before any client is resolved. *)
Example invalid_method_no_dispatch :
  Request.Do Echo.E (Request.WithTimeout Request.New Sample.tenSeconds)
    Sample.ctx "BAD METHOD" Sample.url Sample.world
  = (Sample.world, inr (errorString "net/http: invalid method")).
Proof. reflexivity. Qed.

(** * Further properties of the package *)

(** ** Contexts *)

(** X1. Resolution sees the innermost attachment only: a handle attached
    over another one is the one returned; a nil client attached over a
    handle hides it, so that the default client is made as from an empty
    context; values stored under keys of other packages change nothing. *)
Theorem attachment_shadowing
    (ctx : Context) (outer : option loc) (c : loc) (name : string)
    (v : contextValue) (w : World) :
  clientFromContext
    (AttachClientToContext (AttachClientToContext ctx outer) (Some c)) w = (c, w)
  /\ clientFromContext
       (AttachClientToContext (AttachClientToContext ctx outer) None) w
     = clientFromContext Background w
  /\ clientFromContext (WithValue ctx (foreignKey name) v) w
     = clientFromContext ctx w.
Proof. repeat split. Qed.

(** X2. Default clients are made anew at every resolution and take the value
    that [DefaultClientTimeout] has at that moment: two resolutions without
    attached client give two different handles, and assigning the variable
    in between changes the timeout of the second client only. *)
Theorem default_clients_are_separate
    (ctx1 ctx2 : Context) (w : World) (d : Z)
    (H1 : attachedClient ctx1 = None) (H2 : attachedClient ctx2 = None) :
  let c1 := (clientFromContext ctx1 w).1 in
  let w1 := assign_DefaultClientTimeout d (clientFromContext ctx1 w).2 in
  let c2 := (clientFromContext ctx2 w1).1 in
  let w2 := (clientFromContext ctx2 w1).2 in
  c1 <> c2
  /\ Timeout (deref w2 c1) = DefaultClientTimeout w
  /\ Timeout (deref w2 c2) = d
  /\ (forall l, l ∈ dom (clients w) -> clients w2 !! l = clients w !! l).
Proof.
  cbv zeta.
  rewrite (clientFromContext_default ctx1 w H1).
  rewrite (clientFromContext_default ctx2 _ H2).
  unfold new_client, assign_DefaultClientTimeout, deref. cbn.
  set (c1 := fresh (dom (clients w))).
  set (c2 := fresh (dom (<[c1 := mkClient (DefaultClientTimeout w) None]> (clients w)))).
  assert (c1 ∉ dom (clients w)) as Hf1 by apply is_fresh.
  assert (c2 ∉ dom (<[c1 := mkClient (DefaultClientTimeout w) None]> (clients w)))
    as Hf2 by apply is_fresh.
  assert (c1 <> c2) as Hne.
  { intros Heq. apply Hf2. rewrite <- Heq. apply elem_of_dom.
    rewrite lookup_insert_eq. by eexists. }
  split; [exact Hne | split; [| split]].
  - rewrite lookup_insert_ne by done. by rewrite lookup_insert_eq.
  - by rewrite lookup_insert_eq.
  - intros l Hl. rewrite !lookup_insert_ne; [done | | ].
    + intros <-. by apply Hf1.
    + intros <-. apply Hf2. rewrite dom_insert. set_solver.
Qed.

Lemma default_clients_are_separate_witness :
  attachedClient Background = None
  /\ attachedClient (AttachClientToContext Sample.ctx None) = None
  /\ Timeout
       (deref
          (clientFromContext (AttachClientToContext Sample.ctx None)
             (assign_DefaultClientTimeout Sample.tenSeconds
                (clientFromContext Background Sample.world).2)).2
          (clientFromContext Background Sample.world).1)
     = DefaultClientTimeout Sample.world.
Proof.
  split; [reflexivity | split; [reflexivity |]].
  destruct (default_clients_are_separate Background
              (AttachClientToContext Sample.ctx None) Sample.world
              Sample.tenSeconds eq_refl eq_refl) as (_ & Ht & _).
  exact Ht.
Defined.

(** ** Sending, once more *)

Lemma Client_Do_failure_world (E : Externals) (c : loc) (req : HttpRequest)
    (w w1 : World) (err : goerror) :
  Request.Client_Do E c req w = (w1, inr err) -> bodies w1 = bodies w.
Proof.
  unfold Request.Client_Do.
  destruct (roundTrip E _ _) as [[[status hdr] content]|e]; [discriminate|].
  intros H. by injection H as <- _.
Qed.

Lemma store_Timeout_bodies (c : loc) (d : Z) (w : World) :
  bodies (store_Timeout c d w) = bodies w.
Proof. reflexivity. Qed.

Lemma resolved_bodies (ctx : Context) (w : World) :
  bodies (clientFromContext ctx w).2 = bodies w.
Proof.
  destruct (attachedClient ctx) as [a|] eqn:Ha.
  - by rewrite (clientFromContext_attached _ _ _ Ha).
  - by rewrite (clientFromContext_default _ _ Ha).
Qed.

(** X3. A method or url that [http.NewRequestWithContext] rejects stops
    [Do] at once: the error is returned as it is and the world is the one
    before the call, so no client is made, the attached client keeps its
    timeout even when an override is set, and nothing is sent. *)
Theorem Do_rejected_request_changes_nothing
    (E : Externals) (r : Request.t) (ctx : Context) (method url : string)
    (w : World) (err : goerror)
    (Hbad : checkRequest E (defaultMethod method) url = Some err) :
  Request.Do E r ctx method url w = (w, inr err)
  /\ (forall c, clients (Request.Do E r ctx method url w).1 !! c = clients w !! c)
  /\ sent (Request.Do E r ctx method url w).1 = sent w.
Proof.
  assert (Request.Do E r ctx method url w = (w, inr err)) as Hdo.
  { unfold Request.Do, Request.NewRequestWithContext. by rewrite Hbad. }
  rewrite Hdo. by repeat split.
Qed.

Lemma Do_rejected_request_changes_nothing_witness :
  checkRequest Echo.E "BAD METHOD" Sample.url
  = Some (errorString "net/http: invalid method")
  /\ clients
       (Request.Do Echo.E (Request.WithTimeout Request.New Sample.tenSeconds)
          Sample.ctx "BAD METHOD" Sample.url Sample.world).1 !! 1%positive
     = clients Sample.world !! 1%positive.
Proof.
  split; [reflexivity |].
  destruct (Do_rejected_request_changes_nothing Echo.E
              (Request.WithTimeout Request.New Sample.tenSeconds)
              Sample.ctx "BAD METHOD" Sample.url Sample.world
              (errorString "net/http: invalid method") eq_refl) as (_ & Hc & _).
  exact (Hc 1%positive).
Defined.

(** X4. A [Do] whose request can be built calls the client exactly once,
    with the method given ([GET] when it is empty), the url, and the headers
    and the body of the builder, on the handle resolved from the context. The
    timeout of that call is the
    override when there is one, else the timeout of the attached client, else
    [DefaultClientTimeout]. Without override no client that existed before is
    changed. *)
Theorem Do_sends_once
    (E : Externals) (r : Request.t) (ctx : Context) (method url : string)
    (w : World)
    (Hok : checkRequest E (defaultMethod method) url = None)
    (Hheap : forall a, attachedClient ctx = Some a -> is_Some (clients w !! a)) :
  let w' := (Request.Do E r ctx method url w).1 in
  (exists cl,
      sent w'
      = ((clientFromContext ctx w).1, cl,
         mkHttpRequest (defaultMethod method) url (Request.header r) (Request.body r)) :: sent w
      /\ Timeout cl = match Request.timeout r, attachedClient ctx with
                      | Some d, _ => d
                      | None, Some a => Timeout (deref w a)
                      | None, None => DefaultClientTimeout w
                      end)
  /\ (Request.timeout r = None ->
      forall l, l ∈ dom (clients w) -> clients w' !! l = clients w !! l)
  /\ vars w' = vars w
  /\ DefaultClientTimeout w' = DefaultClientTimeout w.
Proof.
  cbv zeta. rewrite (Do_steps E r ctx method url w Hok). cbv zeta.
  set (c := (clientFromContext ctx w).1).
  set (w1 := (clientFromContext ctx w).2).
  pose proof (resolved_in_heap ctx w Hheap) as Hin. fold c w1 in Hin.
  assert (sent w1 = sent w /\ vars w1 = vars w
          /\ DefaultClientTimeout w1 = DefaultClientTimeout w) as (Hs1 & Hv1 & Hd1).
  { subst w1. destruct (attachedClient ctx) as [a|] eqn:Ha.
    - by rewrite (clientFromContext_attached _ _ _ Ha).
    - by rewrite (clientFromContext_default _ _ Ha). }
  assert (deref w1 c = match attachedClient ctx with
                       | Some a => deref w a
                       | None => mkClient (DefaultClientTimeout w) None
                       end) as Hderef.
  { subst c w1. destruct (attachedClient ctx) as [a|] eqn:Ha.
    - by rewrite (clientFromContext_attached _ _ _ Ha).
    - rewrite (clientFromContext_default _ _ Ha). unfold deref, new_client. cbn.
      by rewrite lookup_insert_eq. }
  destruct (Request.timeout r) as [d|] eqn:Ht.
  - pose proof (Client_Do_world E c
                  (mkHttpRequest (defaultMethod method) url (Request.header r) (Request.body r))
                  (store_Timeout c d w1)) as Hw.
    cbv zeta in Hw. destruct Hw as (Hcl & Hdef & Hvars & Hsent).
    split; [|split; [discriminate | split]].
    + eexists. split; [rewrite Hsent, <- Hs1; reflexivity |].
      by rewrite deref_store_same.
    + by rewrite Hvars.
    + by rewrite Hdef.
  - pose proof (Client_Do_world E c
                  (mkHttpRequest (defaultMethod method) url (Request.header r) (Request.body r))
                  w1) as Hw.
    cbv zeta in Hw. destruct Hw as (Hcl & Hdef & Hvars & Hsent).
    split; [|split; [|split]].
    + eexists. split; [rewrite Hsent, <- Hs1; reflexivity |].
      rewrite Hderef. by destruct (attachedClient ctx).
    + intros _ l Hl. rewrite Hcl.
      destruct (decide (l = c)) as [->|Hne]; [|by apply resolved_frame].
      subst c w1. destruct (attachedClient ctx) as [a|] eqn:Ha.
      * by rewrite (clientFromContext_attached _ _ _ Ha).
      * rewrite (clientFromContext_default _ _ Ha) in Hl.
        cbn in Hl. by apply is_fresh in Hl.
    + by rewrite Hvars.
    + by rewrite Hdef.
Qed.

Lemma Do_sends_once_witness :
  checkRequest Echo.E "GET" Sample.url = None
  /\ (forall a, attachedClient Sample.ctx = Some a ->
        is_Some (clients Sample.world !! a))
  /\ exists cl,
       sent (Request.Do Echo.E
               (Request.WithHeader Request.New "x-trace-id" "477c")
               Sample.ctx "GET" Sample.url Sample.world).1
       = [(1%positive, cl,
           mkHttpRequest "GET" Sample.url
             (Request.header (Request.WithHeader Request.New "x-trace-id" "477c"))
             None)]
       /\ Timeout cl = 5000000000%Z.
Proof.
  assert (forall a, attachedClient Sample.ctx = Some a ->
                    is_Some (clients Sample.world !! a)) as Hheap.
  { intros a Ha. injection Ha as <-. eexists. reflexivity. }
  split; [reflexivity | split; [exact Hheap |]].
  destruct (Do_sends_once Echo.E
              (Request.WithHeader Request.New "x-trace-id" "477c")
              Sample.ctx "GET" Sample.url Sample.world eq_refl Hheap)
    as (Hsent & _).
  exact Hsent.
Defined.

(** X5. The override stays in an attached client: after a [Do] with override
    [d] on a context that carries handle [a], a later [Do] without override
    on any context that carries [a] is sent with timeout [d], not with the
    timeout the client had before. *)
Theorem override_persists_in_attached_client
    (E : Externals) (r1 r2 : Request.t) (ctx1 ctx2 : Context) (a : loc) (d : Z)
    (method1 url1 method2 url2 : string) (w : World)
    (Ha1 : attachedClient ctx1 = Some a)
    (Ha2 : attachedClient ctx2 = Some a)
    (Hin : is_Some (clients w !! a))
    (Hd : Request.timeout r1 = Some d)
    (Hnone : Request.timeout r2 = None)
    (Hok1 : checkRequest E (defaultMethod method1) url1 = None)
    (Hok2 : checkRequest E (defaultMethod method2) url2 = None) :
  let w1 := (Request.Do E r1 ctx1 method1 url1 w).1 in
  let w2 := (Request.Do E r2 ctx2 method2 url2 w1).1 in
  exists cl2 req2,
    head (sent w2) = Some (a, cl2, req2)
    /\ Timeout cl2 = d
    /\ Timeout (deref w2 a) = d.
Proof.
  cbv zeta.
  rewrite (Do_steps E r1 ctx1 method1 url1 w Hok1). cbv zeta.
  rewrite (clientFromContext_attached _ _ _ Ha1), Hd. cbn [fst snd].
  set (w1 := (Request.Client_Do E a _ (store_Timeout a d w)).1).
  assert (clients w1 = clients (store_Timeout a d w)) as Hcl1.
  { subst w1. apply Client_Do_world. }
  assert (deref w1 a = mkClient d (Transport (deref w a))) as Hderef.
  { unfold deref at 1. rewrite Hcl1. by apply deref_store_same. }
  rewrite (Do_steps E r2 ctx2 method2 url2 w1 Hok2). cbv zeta.
  rewrite (clientFromContext_attached _ _ _ Ha2), Hnone. cbn [fst snd].
  match goal with
  | |- context [Request.Client_Do E a ?req2 w1] =>
      pose proof (Client_Do_world E a req2 w1) as Hw2
  end.
  cbv zeta in Hw2. destruct Hw2 as (Hcl2 & _ & _ & Hsent2).
  rewrite Hsent2. cbn [head]. do 2 eexists. split; [reflexivity|].
  rewrite Hderef. split; [reflexivity|].
  unfold deref at 1. rewrite Hcl2. fold (deref w1 a). by rewrite Hderef.
Qed.

Lemma override_persists_in_attached_client_witness :
  attachedClient Sample.ctx = Some 1%positive
  /\ is_Some (clients Sample.world !! 1%positive)
  /\ Timeout (deref Sample.world 1%positive) = 5000000000%Z
  /\ exists cl2 req2,
       head (sent
               (Request.Do Echo.E Request.New Sample.ctx "GET" Sample.url
                  (Request.Do Echo.E
                     (Request.WithTimeout Request.New Sample.tenSeconds)
                     Sample.ctx "POST" Sample.url Sample.world).1).1)
       = Some (1%positive, cl2, req2)
       /\ Timeout cl2 = Sample.tenSeconds
       /\ Timeout
            (deref
               (Request.Do Echo.E Request.New Sample.ctx "GET" Sample.url
                  (Request.Do Echo.E
                     (Request.WithTimeout Request.New Sample.tenSeconds)
                     Sample.ctx "POST" Sample.url Sample.world).1).1 1%positive)
          = Sample.tenSeconds.
Proof.
  assert (is_Some (clients Sample.world !! 1%positive)) as Hin
    by (eexists; reflexivity).
  split; [reflexivity | split; [exact Hin | split; [reflexivity |]]].
  exact (override_persists_in_attached_client Echo.E
           (Request.WithTimeout Request.New Sample.tenSeconds) Request.New
           Sample.ctx Sample.ctx 1%positive Sample.tenSeconds
           "POST" Sample.url "GET" Sample.url Sample.world
           eq_refl eq_refl Hin eq_refl eq_refl eq_refl eq_refl).
Defined.

(** ** Results, once more *)

Lemma Client_Do_success_transport (E : Externals) (c : loc) (req : HttpRequest)
    (w w1 : World) (resp : Response) :
  Request.Client_Do E c req w = (w1, inl resp) ->
  exists content,
    roundTrip E (deref w c) req = inl (StatusCode resp, RespHeader resp, content)
    /\ bodies w1 !! Body resp
       = Some (mkBody (stream content) (final content)
                 (readAfterClose E (deref w c) req) false).
Proof.
  unfold Request.Client_Do.
  destruct (roundTrip E _ _) as [[[status hdr] content]|err]; [|discriminate].
  intros H. injection H as <- <-. exists content. cbn.
  split; [reflexivity | apply lookup_insert_eq].
Qed.

Lemma Do_success_transport (E : Externals) (r : Request.t) (ctx : Context)
    (method url : string) (w w1 : World) (resp : Response) :
  Request.Do E r ctx method url w = (w1, inl resp) ->
  exists cl content,
    roundTrip E cl (mkHttpRequest (defaultMethod method) url (Request.header r) (Request.body r))
    = inl (StatusCode resp, RespHeader resp, content)
    /\ bodies w1 !! Body resp
       = Some (mkBody (stream content) (final content)
                 (readAfterClose E cl
                    (mkHttpRequest (defaultMethod method) url (Request.header r)
                       (Request.body r))) false).
Proof.
  destruct (checkRequest E (defaultMethod method) url) as [err|] eqn:Hc.
  - by rewrite (Do_invalid E r ctx method url w err Hc).
  - rewrite (Do_steps E r ctx method url w Hc). cbv zeta. intros H.
    apply Client_Do_success_transport in H as (content & Hrt & Hb). eauto.
Qed.

Lemma Do_failure_bodies (E : Externals) (r : Request.t) (ctx : Context)
    (method url : string) (w w1 : World) (err : goerror) :
  Request.Do E r ctx method url w = (w1, inr err) -> bodies w1 = bodies w.
Proof.
  destruct (checkRequest E (defaultMethod method) url) as [e|] eqn:Hc.
  - rewrite (Do_invalid E r ctx method url w e Hc). by intros [= <- _].
  - rewrite (Do_steps E r ctx method url w Hc). cbv zeta. intros H.
    apply Client_Do_failure_world in H. rewrite H.
    destruct (Request.timeout r);
      [rewrite store_Timeout_bodies |]; apply resolved_bodies.
Qed.

(** X6. When sending fails, for a request that cannot be built or for an
    error of the transport, [withResult.Do] returns that very error, not
    wrapped, and no result; the world is the one [Request.Do] left, and no
    response body was made or closed. *)
Theorem dispatch_error_passes_through
    (E : Externals) (wr : withResult.t) (ctx : Context) (method url : string)
    (w w1 : World) (err : goerror)
    (Hdo : Request.Do E (withResult.req wr) ctx method url w = (w1, inr err)) :
  withResult.Do E wr ctx method url w = (w1, (None, Some err))
  /\ bodies w1 = bodies w.
Proof.
  split.
  - unfold withResult.Do. by rewrite Hdo.
  - by apply (Do_failure_bodies E _ _ _ _ _ _ _ Hdo).
Qed.

Lemma dispatch_error_passes_through_witness :
  Request.Do Echo.E
    (withResult.req (RequestResults.WithJSONResult Request.New (Pointer 1)))
    Sample.ctx "BAD METHOD" Sample.url Sample.world
  = (Sample.world, inr (errorString "net/http: invalid method"))
  /\ withResult.Do Echo.E (RequestResults.WithJSONResult Request.New (Pointer 1))
       Sample.ctx "BAD METHOD" Sample.url Sample.world
     = (Sample.world, (None, Some (errorString "net/http: invalid method"))).
Proof.
  split; [reflexivity |].
  destruct (dispatch_error_passes_through Echo.E
              (RequestResults.WithJSONResult Request.New (Pointer 1))
              Sample.ctx "BAD METHOD" Sample.url Sample.world Sample.world
              (errorString "net/http: invalid method") eq_refl) as [Hout _].
  exact Hout.
Defined.

(** X7. When [Request.Do] returns a response, the transport answered the
    request of the builder with the status and headers of that response and
    some body. If that body reads to its end, the wrapper made by
    [WithResult] returns the response together with all the bytes of the
    body; if reading ends in an error, it returns no result, and the bytes
    read so far are dropped. *)
Theorem result_holds_the_whole_body
    (E : Externals) (r : Request.t) (ctx : Context) (method url : string)
    (w w1 : World) (resp : Response)
    (Hdo : Request.Do E r ctx method url w = (w1, inl resp)) :
  exists cl content,
    roundTrip E cl (mkHttpRequest (defaultMethod method) url (Request.header r) (Request.body r))
    = inl (StatusCode resp, RespHeader resp, content)
    /\ (final content = None ->
        (withResult.Do E (RequestResults.WithResult r) ctx method url w).2
        = (Some (mkResult resp (stream content)), None))
    /\ (forall e, final content = Some e ->
        (withResult.Do E (RequestResults.WithResult r) ctx method url w).2
        = (None, Some (Errorf_w "failed to read response body: " e))).
Proof.
  destruct (Do_success_transport E r ctx method url w w1 resp Hdo)
    as (cl & content & Hrt & Hbody).
  exists cl, content. split; [exact Hrt|].
  assert (Request.Do E (withResult.req (RequestResults.WithResult r))
            ctx method url w = (w1, inl resp)) as Hdo' by exact Hdo.
  rewrite (withResult_Do_success E _ _ _ _ _ _ _ Hdo'). cbn [snd].
  unfold withResult.afterDefer, Body_ReadAll. rewrite Hbody. cbn.
  split.
  - by intros ->.
  - by intros e ->.
Qed.

Lemma result_holds_the_whole_body_witness :
  exists w1 resp,
    Request.Do Echo.E Sample.scenario Sample.ctx "POST" Sample.url Sample.world
    = (w1, inl resp)
    /\ (withResult.Do Echo.E (RequestResults.WithResult Sample.scenario)
          Sample.ctx "POST" Sample.url Sample.world).2
       = (Some (mkResult resp
                  (list_byte_of_string Sample.payloadJSON ++ [newline])), None).
Proof.
  do 2 eexists. split; [reflexivity |].
  match goal with
  | |- context [mkResult ?resp _] =>
      destruct (result_holds_the_whole_body Echo.E Sample.scenario Sample.ctx
                  "POST" Sample.url Sample.world _ resp eq_refl)
        as (cl & content & Hrt & Hok & _)
  end.
  injection Hrt as Hc. subst content. exact (Hok eq_refl).
Defined.

(** ** Bodies, once more *)

Lemma Do_sent_request (E : Externals) (r : Request.t) (ctx : Context)
    (method url : string) (w : World) :
  checkRequest E (defaultMethod method) url = None ->
  exists c cl,
    sent (Request.Do E r ctx method url w).1
    = (c, cl, mkHttpRequest (defaultMethod method) url (Request.header r) (Request.body r))
      :: sent w.
Proof.
  intros Hok. rewrite (Do_steps E r ctx method url w Hok). cbv zeta.
  match goal with
  | |- context [Request.Client_Do E ?c ?req ?w0] =>
      pose proof (Client_Do_world E c req w0) as Hw
  end.
  cbv zeta in Hw. destruct Hw as (_ & _ & _ & Hsent). rewrite Hsent.
  do 2 eexists. f_equal.
  destruct (Request.timeout r); cbn;
    destruct (attachedClient ctx) as [a|] eqn:Ha;
    first [by rewrite (clientFromContext_attached _ _ _ Ha)
          | by rewrite (clientFromContext_default _ _ Ha)].
Qed.

(** X9. A value that cannot be marshalled does not make [WithJSONBody] or
    [Do] fail by themselves: the Content-Type is set, the request is handed
    to the client, and its body yields no byte and then the very error of the
    encoder, so the failure shows only when the body is read. *)
Theorem json_marshal_error_is_deferred
    (E : Externals) (r : Request.t) (v : any) (e : goerror)
    (ctx : Context) (method url : string) (w : World)
    (Hmarshal : json_Marshal E v = inr e)
    (Hok : checkRequest E (defaultMethod method) url = None) :
  let r' := Request.WithJSONBody E r v in
  Header.Values (Request.header r') "Content-Type" = [jsonMIME]
  /\ exists c cl rd,
       sent (Request.Do E r' ctx method url w).1
       = (c, cl, mkHttpRequest (defaultMethod method) url (Request.header r') (Some rd)) :: sent w
       /\ ReadAll rd = ([], Some e).
Proof.
  cbv zeta. split; [apply Values_Set|].
  destruct (Do_sent_request E (Request.WithJSONBody E r v) ctx method url w Hok)
    as (c & cl & Hsent).
  exists c, cl. eexists. split; [exact Hsent|].
  unfold ReadAll, pipeOf, json_Encoder_Encode. by rewrite Hmarshal.
Qed.

Lemma json_marshal_error_is_deferred_witness :
  json_Marshal Echo.E (Chan 1) = inr (errorString "json: unsupported type: chan int")
  /\ checkRequest Echo.E "POST" Sample.url = None
  /\ exists c cl rd,
       sent (Request.Do Echo.E (Request.WithJSONBody Echo.E Request.New (Chan 1))
               Sample.ctx "POST" Sample.url Sample.world).1
       = (c, cl,
          mkHttpRequest "POST" Sample.url
            (Request.header (Request.WithJSONBody Echo.E Request.New (Chan 1)))
            (Some rd)) :: sent Sample.world
       /\ ReadAll rd = ([], Some (errorString "json: unsupported type: chan int")).
Proof.
  split; [reflexivity | split; [reflexivity |]].
  destruct (json_marshal_error_is_deferred Echo.E Request.New (Chan 1)
              (errorString "json: unsupported type: chan int")
              Sample.ctx "POST" Sample.url Sample.world eq_refl eq_refl)
    as (_ & Hsent).
  exact Hsent.
Defined.

(** X10. If [v] marshals to the XML bytes [b], then after [WithXMLBody v]
    the request handed to the client has a body that reads as exactly [b]
    and ends without error, and its Content-Type is the single value
    application/xml. *)
Theorem xml_body_dispatch
    (E : Externals) (r : Request.t) (v : any) (b : list byte)
    (ctx : Context) (method url : string) (w : World)
    (Hmarshal : xml_Marshal E v = inl b)
    (Hok : checkRequest E (defaultMethod method) url = None) :
  let r' := Request.WithXMLBody E r v in
  Header.Values (Request.header r') "Content-Type" = [xmlMIME]
  /\ exists c cl rd,
       sent (Request.Do E r' ctx method url w).1
       = (c, cl, mkHttpRequest (defaultMethod method) url (Request.header r') (Some rd)) :: sent w
       /\ ReadAll rd = (b, None).
Proof.
  cbv zeta. split; [apply Values_Set|].
  destruct (Do_sent_request E (Request.WithXMLBody E r v) ctx method url w Hok)
    as (c & cl & Hsent).
  exists c, cl. eexists. split; [exact Hsent|].
  unfold ReadAll, pipeOf, xml_Encoder_Encode. by rewrite Hmarshal.
Qed.

Lemma xml_body_dispatch_witness :
  xml_Marshal Echo.E (Str "hello")
  = inl (list_byte_of_string (Echo.quote "hello"))
  /\ checkRequest Echo.E "PUT" Sample.url = None
  /\ Header.Values
       (Request.header (Request.WithXMLBody Echo.E Request.New (Str "hello")))
       "Content-Type" = ["application/xml"].
Proof.
  split; [reflexivity | split; [reflexivity |]].
  destruct (xml_body_dispatch Echo.E Request.New (Str "hello")
              (list_byte_of_string (Echo.quote "hello"))
              Sample.ctx "PUT" Sample.url Sample.world eq_refl eq_refl)
    as (Hct & _).
  exact Hct.
Defined.

(** X11. Of several body calls the last one decides the body, while the
    Content-Type is the one of the last encoder call: an XML body over a JSON
    body is as if the JSON call was never made, and the other way round;
    [WithBody] replaces the body but leaves the Content-Type that an earlier
    [WithJSONBody] set. None of the body calls touches the timeout. *)
Theorem last_body_wins
    (E : Externals) (r : Request.t) (v v' : any) (b : Reader) :
  Request.WithXMLBody E (Request.WithJSONBody E r v) v' = Request.WithXMLBody E r v'
  /\ Request.WithJSONBody E (Request.WithXMLBody E r v) v' = Request.WithJSONBody E r v'
  /\ Request.WithJSONBody E (Request.WithBody r b) v = Request.WithJSONBody E r v
  /\ Request.body (Request.WithBody (Request.WithJSONBody E r v) b) = Some b
  /\ Header.Values
       (Request.header (Request.WithBody (Request.WithJSONBody E r v) b))
       "Content-Type" = [jsonMIME]
  /\ Request.timeout (Request.WithBody (Request.WithJSONBody E r v) b)
     = Request.timeout r.
Proof.
  unfold Request.WithXMLBody, Request.WithJSONBody, Request.WithBody, Header.Set_.
  cbn [Request.header Request.timeout Request.body].
  repeat split; try (by rewrite insert_insert_eq).
  unfold Header.Values, Header.index. by rewrite lookup_insert_eq.
Qed.

(** ** Headers, once more *)

Lemma canon_step_table : forallb canon_step_ok all_ascii = true.
Proof. vm_compute. reflexivity. Qed.

Lemma canon_step (u : bool) (c : ascii) :
  canonByte u (canonByte u c) = canonByte u c
  /\ validHeaderFieldByte (canonByte u c) = validHeaderFieldByte c.
Proof.
  pose proof (forallb_ascii _ canon_step_table c) as H.
  unfold canon_step_ok, ascii_dec_eqb in H. cbn [forallb] in H.
  rewrite !andb_true_iff in H. destruct H as ((Ht & Hvt) & (Hf & Hvf) & _).
  apply Ascii.eqb_eq in Ht, Hf. apply Bool.eqb_prop in Hvt, Hvf.
  destruct u; split; assumption.
Qed.

Lemma canonLoop_idem (s : string) :
  forall u, canonLoop u (canonLoop u s) = canonLoop u s.
Proof.
  induction s as [|c s IH]; intros u; [reflexivity|].
  cbn [canonLoop]. destruct (canon_step u c) as [-> _]. by rewrite IH.
Qed.

Lemma allValid_canonLoop (s : string) :
  forall u, allValid (canonLoop u s) = allValid s.
Proof.
  induction s as [|c s IH]; intros u; [reflexivity|].
  cbn [canonLoop allValid]. destruct (canon_step u c) as [_ ->]. by rewrite IH.
Qed.

(** A canonical key is its own canonical form. *)
Lemma canonical_idem (key : string) :
  CanonicalMIMEHeaderKey (CanonicalMIMEHeaderKey key) = CanonicalMIMEHeaderKey key.
Proof.
  unfold CanonicalMIMEHeaderKey. destruct (allValid key) eqn:Hv.
  - by rewrite allValid_canonLoop, Hv, canonLoop_idem.
  - by rewrite Hv.
Qed.

(** X12. Header calls compose as on a map keyed by canonical names: a
    [WithHeader] makes an earlier [WithHeader] or [WithMultiValuedHeader] on
    the same name as if it was never made; calls on names with different
    canonical forms can be swapped and do not see each other; a name and its
    canonical form are the same name. *)
Theorem header_calls_compose
    (r : Request.t) (k k1 k2 v1 v2 : string)
    (Hne : CanonicalMIMEHeaderKey k1 <> CanonicalMIMEHeaderKey k2) :
  Request.WithHeader (Request.WithHeader r k v1) k v2 = Request.WithHeader r k v2
  /\ Request.WithHeader (Request.WithMultiValuedHeader r k v1) k v2
     = Request.WithHeader r k v2
  /\ Request.WithHeader r (CanonicalMIMEHeaderKey k) v1 = Request.WithHeader r k v1
  /\ Request.WithMultiValuedHeader r (CanonicalMIMEHeaderKey k) v1
     = Request.WithMultiValuedHeader r k v1
  /\ Request.WithHeader (Request.WithHeader r k1 v1) k2 v2
     = Request.WithHeader (Request.WithHeader r k2 v2) k1 v1
  /\ Request.WithMultiValuedHeader (Request.WithHeader r k1 v1) k2 v2
     = Request.WithHeader (Request.WithMultiValuedHeader r k2 v2) k1 v1
  /\ Header.Values (Request.header (Request.WithHeader r k1 v1)) k2
     = Header.Values (Request.header r) k2
  /\ Header.Values (Request.header (Request.WithMultiValuedHeader r k1 v1)) k2
     = Header.Values (Request.header r) k2.
Proof.
  unfold Request.WithHeader, Request.WithMultiValuedHeader, Request.set_header,
    Header.Set_, Header.Add, Header.Values, Header.index.
  cbn [Request.header Request.timeout Request.body].
  rewrite !canonical_idem.
  repeat split; try (by rewrite insert_insert_eq).
  - f_equal. by apply insert_insert_ne.
  - f_equal. rewrite lookup_insert_ne by done. by apply insert_insert_ne.
  - by rewrite lookup_insert_ne.
  - by rewrite lookup_insert_ne.
Qed.

Lemma header_calls_compose_witness :
  CanonicalMIMEHeaderKey "accept" <> CanonicalMIMEHeaderKey "x-trace-id"
  /\ Request.WithHeader (Request.WithHeader Request.New "accept" "*/*")
       "x-trace-id" "477c"
     = Request.WithHeader (Request.WithHeader Request.New "x-trace-id" "477c")
         "accept" "*/*".
Proof.
  assert (CanonicalMIMEHeaderKey "accept" <> CanonicalMIMEHeaderKey "x-trace-id")
    as Hne by (vm_compute; discriminate).
  split; [exact Hne |].
  destruct (header_calls_compose Request.New "accept" "accept" "x-trace-id"
              "*/*" "477c" Hne) as (_ & _ & _ & _ & Hswap & _).
  exact Hswap.
Defined.

Lemma headerWellFormed_empty : headerWellFormed ∅.
Proof. intros key values H. by rewrite lookup_empty in H. Qed.

Lemma headerWellFormed_Set (h : gmap string (list string)) (key value : string) :
  headerWellFormed h -> headerWellFormed (Header.Set_ h key value).
Proof.
  intros Hwf k vs. unfold Header.Set_.
  destruct (decide (CanonicalMIMEHeaderKey key = k)) as [<-|Hne].
  - rewrite lookup_insert_eq. intros [= <-]. split; [apply canonical_idem | done].
  - rewrite lookup_insert_ne by done. apply Hwf.
Qed.

Lemma headerWellFormed_Add (h : gmap string (list string)) (key value : string) :
  headerWellFormed h -> headerWellFormed (Header.Add h key value).
Proof.
  intros Hwf k vs. unfold Header.Add.
  destruct (decide (CanonicalMIMEHeaderKey key = k)) as [<-|Hne].
  - rewrite lookup_insert_eq. intros [= <-]. split; [apply canonical_idem |].
    by destruct (Header.index h (CanonicalMIMEHeaderKey key)).
  - rewrite lookup_insert_ne by done. apply Hwf.
Qed.

Lemma applyCall_wellFormed (E : Externals) (r : Request.t) (c : builderCall) :
  headerWellFormed (Request.header r) ->
  headerWellFormed (Request.header (applyCall E r c)).
Proof.
  intros Hwf.
  destruct c; cbn; try done;
    try (by apply headerWellFormed_Set); try (by apply headerWellFormed_Add);
    destruct (String.eqb _ _); cbn; try done; by apply headerWellFormed_Set.
Qed.

Lemma foldl_applyCall_wellFormed (E : Externals) (calls : list builderCall) :
  forall r, headerWellFormed (Request.header r) ->
            headerWellFormed (Request.header (foldl (applyCall E) r calls)).
Proof.
  induction calls as [|c calls IH]; intros r Hwf; [done|].
  cbn. by apply IH, applyCall_wellFormed.
Qed.

(** X13. Whatever configuration calls are made on a new builder, in any
    order, every key of its header map is in canonical form and has at least
    one value; so the values stored under a key are the ones [Values] returns
    for it, and a key is present exactly when [Values] is not empty. *)
Theorem builder_headers_well_formed (E : Externals) (calls : list builderCall) :
  let h := Request.header (build E calls) in
  headerWellFormed h
  /\ (forall key values, h !! key = Some values -> Header.Values h key = values)
  /\ (forall key,
        Header.Values h key = [] <-> h !! CanonicalMIMEHeaderKey key = None).
Proof.
  cbv zeta.
  assert (headerWellFormed (Request.header (build E calls))) as Hwf.
  { apply foldl_applyCall_wellFormed, headerWellFormed_empty. }
  split; [exact Hwf | split].
  - intros key values Hk. destruct (Hwf key values Hk) as [Hc _].
    unfold Header.Values, Header.index. by rewrite Hc, Hk.
  - intros key. unfold Header.Values, Header.index.
    destruct (Request.header (build E calls) !! CanonicalMIMEHeaderKey key)
      as [vs|] eqn:Hk; cbn; [|done].
    destruct (Hwf _ _ Hk) as [_ Hvs]. split; [done | discriminate].
Qed.

Lemma builder_headers_well_formed_witness :
  Request.header
    (build Echo.E [callHeader "x-trace-id" "477c"; callJSONBody Sample.payload;
                   callJSONResult (Pointer 1)]) !! "Accept"
  = Some ["application/json"]
  /\ Header.Values
       (Request.header
          (build Echo.E [callHeader "x-trace-id" "477c";
                         callJSONBody Sample.payload;
                         callJSONResult (Pointer 1)])) "Accept"
     = ["application/json"].
Proof.
  split; [reflexivity |].
  destruct (builder_headers_well_formed Echo.E
              [callHeader "x-trace-id" "477c"; callJSONBody Sample.payload;
               callJSONResult (Pointer 1)]) as (_ & Hv & _).
  apply Hv. reflexivity.
Defined.

(** X14. [WithBearerAuthentication token] leaves under Authorization exactly
    the value "Bearer " followed by the token, and of two authentication
    calls the last one decides: basic then bearer is bearer alone, bearer
    then basic is basic alone. *)
Theorem last_authentication_wins (r : Request.t) (username password token : string) :
  Header.Values (Request.header (Request.WithBearerAuthentication r token))
    "Authorization" = ["Bearer " +:+ token]
  /\ Request.WithBearerAuthentication
       (Request.WithBasicAuth r username password) token
     = Request.WithBearerAuthentication r token
  /\ Request.WithBasicAuth
       (Request.WithBearerAuthentication r token) username password
     = Request.WithBasicAuth r username password.
Proof.
  split; [apply Values_Set|].
  unfold Request.WithBearerAuthentication, Request.WithBasicAuth,
    Request.set_header, Header.Set_.
  cbn [Request.header Request.timeout Request.body].
  split; by rewrite insert_insert_eq.
Qed.

(** ** Result variants, once more *)

Lemma Get_after_guard (r : Request.t) (mime : string) :
  mime <> EmptyString ->
  String.eqb
    (Header.Get
       (Request.header
          (if String.eqb (Header.Get (Request.header r) "Accept") EmptyString
           then Request.set_header (Header.Set_ (Request.header r) "Accept" mime) r
           else r)) "Accept") EmptyString = false.
Proof.
  intros Hm.
  destruct (String.eqb (Header.Get (Request.header r) "Accept") EmptyString) eqn:Hg.
  - unfold Request.set_header. cbn [Request.header].
    rewrite Get_Values, Values_Set. cbn [hd]. by apply String.eqb_neq.
  - exact Hg.
Qed.

(** X16. Of two result variants applied one after the other, the first one
    decides the Accept header and the second one the decoder: after
    [WithJSONResult] a [WithXMLResult] changes nothing in the request, yet the
    wrapper decodes XML, and the other way round; a variant applied twice
    changes the request once. *)
Theorem first_result_variant_sets_accept (r : Request.t) (v v' : any) :
  let wj := RequestResults.WithJSONResult r v in
  let wx := RequestResults.WithXMLResult r v in
  withResult.req (RequestResults.WithXMLResult (withResult.req wj) v')
  = withResult.req wj
  /\ withResult.unmarshal (RequestResults.WithXMLResult (withResult.req wj) v')
     = Some (unmarshalXMLInto v')
  /\ withResult.req (RequestResults.WithJSONResult (withResult.req wx) v')
     = withResult.req wx
  /\ withResult.unmarshal (RequestResults.WithJSONResult (withResult.req wx) v')
     = Some (unmarshalJSONInto v')
  /\ withResult.req (RequestResults.WithJSONResult (withResult.req wj) v')
     = withResult.req wj
  /\ Header.Get (Request.header (withResult.req wj)) "Accept" <> EmptyString
  /\ Header.Get (Request.header (withResult.req wx)) "Accept" <> EmptyString.
Proof.
  cbv zeta. unfold RequestResults.WithJSONResult, RequestResults.WithXMLResult.
  cbn [withResult.req withResult.unmarshal].
  pose proof (Get_after_guard r jsonMIME) as Hj.
  pose proof (Get_after_guard r xmlMIME) as Hx.
  rewrite Hj by discriminate. rewrite Hx by discriminate.
  repeat split; apply String.eqb_neq; [apply Hj | apply Hx]; discriminate.
Qed.

(** ** The builder of the earlier revision *)

Lemma Builder_DoWithContext_as_Request (E : Externals) (b : Builder.t)
    (ctx : Context) (method url : string) (w : World) :
  Builder.DoWithContext E b ctx method url w
  = Request.Do E
      (Request.mk (Builder.header b) (Builder.timeout b) (Builder.body b))
      ctx method url w.
Proof. reflexivity. Qed.

(** X17. [Builder.Do], which sends with the background context, never uses
    a client of the caller: when the request can be built it makes a new
    default client, sends once through it with the method given ([GET] when
    it is empty), the url and the builder's headers and body, with the
    override as timeout when there is one and [DefaultClientTimeout] otherwise, and leaves every existing client as it
    was, override or not. *)
Theorem Builder_Do_uses_a_new_client
    (E : Externals) (b : Builder.t) (method url : string) (w : World)
    (Hok : checkRequest E (defaultMethod method) url = None) :
  let w' := (Builder.Do E b method url w).1 in
  exists c cl,
    sent w'
    = (c, cl, mkHttpRequest (defaultMethod method) url (Builder.header b) (Builder.body b))
      :: sent w
    /\ (c ∉ dom (clients w))
    /\ Transport cl = None
    /\ Timeout cl = match Builder.timeout b with
                    | Some d => d
                    | None => DefaultClientTimeout w
                    end
    /\ (forall l, l ∈ dom (clients w) -> clients w' !! l = clients w !! l).
Proof.
  cbv zeta. unfold Builder.Do. rewrite Builder_DoWithContext_as_Request.
  rewrite (Do_steps E _ Background method url w Hok). cbv zeta.
  cbn [Request.header Request.timeout Request.body].
  change (clientFromContext Background w)
    with (new_client (mkClient (DefaultClientTimeout w) None) w).
  unfold new_client. cbn [fst snd].
  set (c := fresh (dom (clients w))).
  assert (c ∉ dom (clients w)) as Hfresh by apply is_fresh.
  set (w1 := set_clients <[c := mkClient (DefaultClientTimeout w) None]> w).
  assert (clients w1 !! c = Some (mkClient (DefaultClientTimeout w) None)) as Hc1.
  { subst w1. cbn. apply lookup_insert_eq. }
  destruct (Builder.timeout b) as [d|].
  - pose proof (Client_Do_world E c
        (mkHttpRequest (defaultMethod method) url (Builder.header b) (Builder.body b))
        (store_Timeout c d w1)) as Hw.
    cbv zeta in Hw. destruct Hw as (Hcl & _ & _ & Hsent).
    exists c. eexists. split; [rewrite Hsent; reflexivity |].
    rewrite deref_store_same by (by eexists).
    split; [exact Hfresh | split; [| split; [reflexivity |]]].
    + unfold deref. by rewrite Hc1.
    + intros l Hl. rewrite Hcl, store_Timeout_clients.
      assert (l <> c) as Hne by (intros ->; by apply Hfresh).
      rewrite lookup_alter_ne by done. subst w1. cbn. by rewrite lookup_insert_ne.
  - pose proof (Client_Do_world E c
        (mkHttpRequest (defaultMethod method) url (Builder.header b) (Builder.body b)) w1) as Hw.
    cbv zeta in Hw. destruct Hw as (Hcl & _ & _ & Hsent).
    exists c. eexists. split; [rewrite Hsent; reflexivity |].
    unfold deref. rewrite Hc1. cbn.
    split; [exact Hfresh | split; [reflexivity | split; [reflexivity |]]].
    intros l Hl. rewrite Hcl.
    assert (l <> c) as Hne by (intros ->; by apply Hfresh).
    subst w1. cbn. by rewrite lookup_insert_ne.
Qed.

Lemma Builder_Do_uses_a_new_client_witness :
  checkRequest Echo.E "POST" Sample.url = None
  /\ clients
       (Builder.Do Echo.E (Builder.Timeout Builder.NewBuilder Sample.tenSeconds)
          "POST" Sample.url Sample.world).1 !! 1%positive
     = Some (mkClient 5000000000 (Some 1%N)).
Proof.
  split; [reflexivity |].
  destruct (Builder_Do_uses_a_new_client Echo.E
              (Builder.Timeout Builder.NewBuilder Sample.tenSeconds)
              "POST" Sample.url Sample.world eq_refl)
    as (c & cl & _ & _ & _ & _ & Hframe).
  rewrite Hframe; [reflexivity |].
  apply elem_of_dom. eexists. reflexivity.
Defined.

(** ** Basic authentication loses nothing *)

Section Base64Facts.

Import Base64Inverse.

Local Open Scope N_scope.

Lemma lor_shift_add (x y n : N) :
  y < 2 ^ n -> N.lor (N.shiftl x n) y = x * 2 ^ n + y.
Proof.
  intros Hy.
  assert (N.land (N.shiftl x n) y = 0) as Hdisj.
  { apply N.bits_inj. intros k. rewrite N.land_spec, N.bits_0.
    destruct (N.lt_ge_cases k n) as [Hk|Hk].
    - by rewrite N.shiftl_spec_low.
    - rewrite <- (N.mod_small y (2 ^ n)) by exact Hy.
      rewrite N.mod_pow2_bits_high by exact Hk. apply andb_false_r. }
  rewrite <- N.lxor_lor by exact Hdisj.
  rewrite <- N.add_nocarry_lxor by exact Hdisj.
  by rewrite N.shiftl_mul_pow2.
Qed.

(** The 24-bit value of a group of three bytes. *)
Lemma group_value (a b c : byte) :
  N.lor (N.lor (N.shiftl (Byte.to_N a) 16) (N.shiftl (Byte.to_N b) 8)) (Byte.to_N c)
  = Byte.to_N a * 65536 + Byte.to_N b * 256 + Byte.to_N c.
Proof.
  pose proof (Byte.to_N_bounded a). pose proof (Byte.to_N_bounded b).
  pose proof (Byte.to_N_bounded c).
  rewrite (lor_shift_add (Byte.to_N a) (N.shiftl (Byte.to_N b) 8) 16).
  2:{ rewrite N.shiftl_mul_pow2. change (2 ^ 8) with 256. change (2 ^ 16) with 65536.
      lia. }
  rewrite N.shiftl_mul_pow2. change (2 ^ 8) with 256. change (2 ^ 16) with 65536.
  replace (Byte.to_N a * 65536 + Byte.to_N b * 256)
    with (N.shiftl (Byte.to_N a * 256 + Byte.to_N b) 8).
  2:{ rewrite N.shiftl_mul_pow2. change (2 ^ 8) with 256. lia. }
  rewrite lor_shift_add by (change (2 ^ 8) with 256; lia).
  rewrite !N.shiftl_mul_pow2. change (2 ^ 8) with 256. lia.
Qed.

Lemma pair_value (a b : byte) :
  N.lor (N.shiftl (Byte.to_N a) 16) (N.shiftl (Byte.to_N b) 8)
  = Byte.to_N a * 65536 + Byte.to_N b * 256.
Proof.
  pose proof (Byte.to_N_bounded b).
  rewrite lor_shift_add;
    rewrite N.shiftl_mul_pow2; change (2 ^ 8) with 256; change (2 ^ 16) with 65536;
    lia.
Qed.

Lemma sextet_spec (val k : N) :
  Base64.sextet val k = Base64.enc ((val / 2 ^ k) mod 64).
Proof.
  unfold Base64.sextet. rewrite N.shiftr_div_pow2.
  change 63 with (N.ones 6). by rewrite N.land_ones.
Qed.

Lemma alphabet_table : forallb alphabet_ok sextets = true.
Proof. vm_compute. reflexivity. Qed.

Lemma alphabet_spec (n : N) :
  n < 64 ->
  Ascii.eqb (Base64.enc n) Base64.StdPadding = false
  /\ decodeMap (Base64.enc n) = n.
Proof.
  intros Hn. pose proof alphabet_table as H. rewrite forallb_forall in H.
  specialize (H n). unfold alphabet_ok in H.
  rewrite andb_true_iff, negb_true_iff, N.eqb_eq in H. apply H.
  unfold sextets. rewrite <- (N2Nat.id n). apply in_map, in_seq. lia.
Qed.

Lemma sextet_decode (val k : N) :
  Ascii.eqb (Base64.sextet val k) Base64.StdPadding = false
  /\ decodeMap (Base64.sextet val k) = (val / 2 ^ k) mod 64.
Proof.
  rewrite sextet_spec. apply alphabet_spec. by apply N.mod_lt.
Qed.

Lemma split24 (val : N) :
  val < 16777216 ->
  ((val / 262144) mod 64) * 262144 + ((val / 4096) mod 64) * 4096
  + ((val / 64) mod 64) * 64 + val mod 64 = val.
Proof. intros H. zify. Z.to_euclidean_division_equations. lia. Qed.

Lemma bytes24 (a b c : N) :
  a <= 255 -> b <= 255 -> c <= 255 ->
  (a * 65536 + b * 256 + c) / 65536 = a
  /\ ((a * 65536 + b * 256 + c) / 256) mod 256 = b
  /\ (a * 65536 + b * 256 + c) mod 256 = c
  /\ a * 65536 + b * 256 + c < 16777216.
Proof. intros Ha Hb Hc. zify. Z.to_euclidean_division_equations. lia. Qed.

Lemma quadValue_sextets (val : N) :
  val < 16777216 ->
  quadValue (Base64.sextet val 18) (Base64.sextet val 12)
    (Base64.sextet val 6) (Base64.sextet val 0) = val.
Proof.
  intros Hv. unfold quadValue.
  rewrite !(proj2 (sextet_decode val _)).
  change (2 ^ 18) with 262144. change (2 ^ 12) with 4096.
  change (2 ^ 6) with 64. change (2 ^ 0) with 1. rewrite N.div_1_r.
  by apply split24.
Qed.

Lemma byteOf_to_N (b : byte) : byteOf (Byte.to_N b) = b.
Proof. unfold byteOf. by rewrite Byte.of_to_N. Qed.

Lemma decodeMap_A : decodeMap "A" = 0.
Proof. reflexivity. Qed.

Lemma Decode_Encode (src : list byte) : Decode (Base64.Encode src) = src.
Proof.
  induction src as [| a | a b | a b c l IH] using list_ind3.
  - reflexivity.
  - cbn [Base64.Encode Decode]. cbv zeta.
    change (Ascii.eqb Base64.StdPadding Base64.StdPadding) with true. cbv iota.
    pose proof (Byte.to_N_bounded a) as Ha.
    rewrite N.shiftl_mul_pow2. change (2 ^ 16) with 65536.
    set (val := Byte.to_N a * 65536).
    assert (val < 16777216) as Hlt by (subst val; lia).
    assert (val / 65536 = Byte.to_N a) as H1.
    { subst val. zify. Z.to_euclidean_division_equations. lia. }
    pose proof (quadValue_sextets val Hlt) as Hq. unfold quadValue in *.
    rewrite decodeMap_A.
    rewrite !(proj2 (sextet_decode val _)) in *.
    assert ((val / 2 ^ 6) mod 64 = 0 /\ (val / 2 ^ 0) mod 64 = 0) as [H6 H0].
    { change (2 ^ 6) with 64. change (2 ^ 0) with 1. subst val.
      zify. Z.to_euclidean_division_equations. lia. }
    rewrite H6, H0 in Hq. rewrite Hq, H1. by rewrite byteOf_to_N.
  - cbn [Base64.Encode Decode]. cbv zeta.
    rewrite pair_value.
    pose proof (Byte.to_N_bounded a) as Ha. pose proof (Byte.to_N_bounded b) as Hb.
    set (val := Byte.to_N a * 65536 + Byte.to_N b * 256).
    assert (val < 16777216) as Hlt by (subst val; lia).
    assert (val / 65536 = Byte.to_N a /\ (val / 256) mod 256 = Byte.to_N b)
      as [H1 H2].
    { subst val. zify. Z.to_euclidean_division_equations. lia. }
    rewrite (proj1 (sextet_decode val 6)).
    change (Ascii.eqb Base64.StdPadding Base64.StdPadding) with true. cbv iota.
    pose proof (quadValue_sextets val Hlt) as Hq. unfold quadValue in *.
    rewrite decodeMap_A.
    rewrite !(proj2 (sextet_decode val _)) in *.
    assert ((val / 2 ^ 0) mod 64 = 0) as H0.
    { change (2 ^ 0) with 1. subst val.
      zify. Z.to_euclidean_division_equations. lia. }
    rewrite H0 in Hq. rewrite Hq, H1, H2. by rewrite !byteOf_to_N.
  - cbn [Base64.Encode Decode]. cbv zeta.
    rewrite group_value.
    pose proof (Byte.to_N_bounded a) as Ha. pose proof (Byte.to_N_bounded b) as Hb.
    pose proof (Byte.to_N_bounded c) as Hc.
    destruct (bytes24 (Byte.to_N a) (Byte.to_N b) (Byte.to_N c) Ha Hb Hc)
      as (H1 & H2 & H3 & Hlt).
    set (val := Byte.to_N a * 65536 + Byte.to_N b * 256 + Byte.to_N c) in *.
    rewrite (proj1 (sextet_decode val 6)), (proj1 (sextet_decode val 0)).
    rewrite (quadValue_sextets val Hlt), H1, H2, H3, IH.
    by rewrite !byteOf_to_N.
Qed.

End Base64Facts.

Lemma Encode_injective (l1 l2 : list byte) :
  Base64.Encode l1 = Base64.Encode l2 -> l1 = l2.
Proof.
  intros H. rewrite <- (Decode_Encode l1), <- (Decode_Encode l2). by rewrite H.
Qed.

Lemma list_byte_of_string_injective (s1 s2 : string) :
  list_byte_of_string s1 = list_byte_of_string s2 -> s1 = s2.
Proof.
  intros H. rewrite <- (string_of_list_byte_of_string s1),
    <- (string_of_list_byte_of_string s2). by rewrite H.
Qed.

Lemma append_injective_r (p s1 s2 : string) : p +:+ s1 = p +:+ s2 -> s1 = s2.
Proof.
  induction p as [|c p IH]; cbn; [done|]. intros [= H]. by apply IH.
Qed.

Lemma append_assoc (s1 s2 s3 : string) :
  (s1 +:+ s2) +:+ s3 = s1 +:+ (s2 +:+ s3).
Proof.
  induction s1 as [|c s1 IH]; [reflexivity|].
  change (String c ((s1 +:+ s2) +:+ s3) = String c (s1 +:+ (s2 +:+ s3))).
  by rewrite IH.
Qed.

(** X15. Two calls of [WithBasicAuth] leave the same Authorization value
    exactly when [username ":" password] is the same string in both: nothing
    of the credentials is lost by the encoding, and the colon is not escaped,
    so a colon may move between the end of the username and the start of the
    password without changing the request. *)
Theorem basic_auth_is_injective
    (r : Request.t) (u1 p1 u2 p2 a b c : string) :
  (Header.Get (Request.header (Request.WithBasicAuth r u1 p1)) "Authorization"
   = Header.Get (Request.header (Request.WithBasicAuth r u2 p2)) "Authorization"
   <-> u1 +:+ ":" +:+ p1 = u2 +:+ ":" +:+ p2)
  /\ Request.WithBasicAuth r (a +:+ ":" +:+ b) c
     = Request.WithBasicAuth r a (b +:+ ":" +:+ c).
Proof.
  split.
  - unfold Request.WithBasicAuth, Request.set_header.
    cbn [Request.header]. rewrite !Get_Values, !Values_Set. cbn [hd].
    split.
    + intros H. apply append_injective_r in H.
      by apply list_byte_of_string_injective, Encode_injective.
    + by intros ->.
  - unfold Request.WithBasicAuth. cbv zeta. rewrite (append_assoc a). cbn [String.append].
    reflexivity.
Qed.

(** ** Decoding into the destination *)

Lemma Body_ReadAll_vars (b : loc) (w : World) :
  vars (Body_ReadAll b w).1 = vars w.
Proof.
  unfold Body_ReadAll. destruct (bodies w !! b) as [st|]; [|done].
  by destruct (closed st).
Qed.

(** X8. With the JSON result variant, when the response arrives and its
    body reads to the end, the decoder is run once on all the bytes of the
    body against the variables as they were when the response arrived. If it
    accepts them, [Do] returns the response with those bytes, the variables
    are the ones the decoder left, and the body is closed. *)
Theorem json_result_decodes_whole_body
    (E : Externals) (r : Request.t) (v : any) (ctx : Context)
    (method url : string) (w w1 : World) (resp : Response)
    (data : list byte) (vs : gmap loc any) (ac : option goerror)
    (Hdo : Request.Do E (withResult.req (RequestResults.WithJSONResult r v))
             ctx method url w = (w1, inl resp))
    (Hbody : bodies w1 !! Body resp = Some (mkBody data None ac false))
    (Hdecode : json_Unmarshal E data v (vars w1) = (vs, None)) :
  let out := withResult.Do E (RequestResults.WithJSONResult r v) ctx method url w in
  out.2 = (Some (mkResult resp data), None)
  /\ vars out.1 = vs
  /\ isClosed out.1 (Body resp) = true
  /\ clients out.1 = clients w1.
Proof.
  cbv zeta. rewrite (withResult_Do_success E _ _ _ _ _ _ _ Hdo).
  cbn [fst snd]. unfold withResult.afterDefer.
  pose proof (Body_ReadAll_vars (Body resp) w1) as Hvars.
  unfold Body_ReadAll in *. rewrite Hbody in *. cbn in Hvars |- *.
  rewrite Hdecode. cbn.
  repeat split. unfold isClosed. cbn.
  by rewrite lookup_alter_eq, lookup_insert_eq.
Qed.

Lemma json_result_decodes_whole_body_witness :
  exists w1 resp,
    Request.Do Echo.E
      (withResult.req
         (RequestResults.WithJSONResult
            (Request.WithJSONBody Echo.E Request.New Sample.payload) (Pointer 1)))
      Sample.ctx "POST" Sample.url Sample.world = (w1, inl resp)
    /\ bodies w1 !! Body resp
       = Some (mkBody (list_byte_of_string Sample.payloadJSON ++ [newline])
                 None None false)
    /\ vars
         (withResult.Do Echo.E
            (RequestResults.WithJSONResult
               (Request.WithJSONBody Echo.E Request.New Sample.payload) (Pointer 1))
            Sample.ctx "POST" Sample.url Sample.world).1 !! 1%positive
       = Some (Str (string_of_list_byte
                      (list_byte_of_string Sample.payloadJSON ++ [newline]))).
Proof.
  do 2 eexists. split; [reflexivity | split; [reflexivity |]].
  match goal with
  | |- context [withResult.Do ?E ?wr ?ctx ?m ?u ?w] =>
      destruct (json_result_decodes_whole_body Echo.E
                  (Request.WithJSONBody Echo.E Request.New Sample.payload)
                  (Pointer 1) Sample.ctx "POST" Sample.url Sample.world
                  _ _ _ _ _ eq_refl eq_refl eq_refl) as (_ & Hvars & _)
  end.
  rewrite Hvars. reflexivity.
Defined.

(** An empty method is sent as GET. *)
Example empty_method_is_GET :
  exists cl,
    sent (Request.Do Echo.E Request.New Sample.ctx EmptyString Sample.url
            Sample.world).1
    = [(1%positive, cl, mkHttpRequest "GET" Sample.url ∅ None)].
Proof. eexists. reflexivity. Qed.

(** The double renders an integer as the decimal digits. *)
Example marshal_integer :
  json_Encoder_Encode Echo.E (Int 1) = (list_byte_of_string "1" ++ [newline], None).
Proof. reflexivity. Qed.
